(** * A shallow embedding of [handler.py] (ChatterBox TTS / voice cloning
    RunPod handler).

    The handler receives a JSON job, dispatches on [mode], lazily loads one
    of three models into the module-level cache [_models], materialises
    base64 audio into temporary files, calls the model, and answers with a
    Python dict.  The model library, [torchaudio.save] and the file system's
    failure behaviour are collaborators: they are the fields of [env]. *)

From Stdlib Require Import String Ascii List ZArith QArith Bool Lia.
From Stdlib Require Import DecimalString.
Import ListNotations.
Set Warnings "-register-all".
Open Scope nat_scope.
Open Scope string_scope.

(** ** Python values *)

(** JSON values as the handler sees them after RunPod decoded the job.
    JSON numbers are kept as rationals (every decimal literal is one); the
    handler only passes them through, tests their truth value, or compares
    them with a string.  A dict is an association list in insertion order
    with unique keys. *)
Inductive pyval : Type :=
| PNone
| PBool (b : bool)
| PInt (z : Z)
| PNum (q : Q)
| PStr (s : string)
| PList (l : list pyval)
| PDict (kv : list (string * pyval)).

(** [bool(v)] *)
Definition truthy (v : pyval) : bool :=
  match v with
  | PNone => false
  | PBool b => b
  | PInt z => negb (Z.eqb z 0)
  | PNum q => negb (Qeq_bool q 0)
  | PStr s => negb (String.eqb s "")
  | PList l => match l with [] => false | _ => true end
  | PDict kv => match kv with [] => false | _ => true end
  end.

(** [v is None] *)
Definition is_none (v : pyval) : bool :=
  match v with PNone => true | _ => false end.

(** [v == s] for a string literal [s]: only a [str] equals a [str]. *)
Definition py_eq_str (v : pyval) (s : string) : bool :=
  match v with PStr t => String.eqb t s | _ => false end.

Definition type_name (v : pyval) : string :=
  match v with
  | PNone => "NoneType" | PBool _ => "bool" | PInt _ => "int"
  | PNum _ => "float" | PStr _ => "str" | PList _ => "list"
  | PDict _ => "dict"
  end.

Fixpoint assoc (k : string) (kv : list (string * pyval)) : option pyval :=
  match kv with
  | [] => None
  | (k', v) :: kv' => if String.eqb k k' then Some v else assoc k kv'
  end.

(** ** Exceptions and the handler's monad *)

(** A raised exception: its class name and [str(e)].  Every exception the
    handler can meet derives from [Exception]. *)
Record exn : Type := mkExn { exn_type : string; exn_str : string }.

Inductive result (A : Type) : Type :=
| Ok (a : A)
| Exc (e : exn).
Arguments Ok {A} a.
Arguments Exc {A} e.

Definition handle := nat.
Definition bytes := list Byte.byte.
Definition wav := list Z.

Inductive variant : Type := English | Multilingual | VoiceClone.

(** One call of [model.generate], with the keyword arguments it received.
    [gt_language_id] is [None] when the keyword is not passed at all. *)
Inductive gen_call : Type :=
| GenTTS (h : handle) (text : pyval) (gt_language_id : option pyval)
    (repetition_penalty min_p top_p audio_prompt_path exaggeration
     cfg_weight temperature : pyval)
| GenVC (h : handle) (audio target_voice_path : string).

(** The process state the handler touches: the [_models] cache, the
    temporary files that exist, the counter [tempfile] uses for fresh
    names, and two observation logs: every call of [from_pretrained]
    (a load attempt) and every call of [model.generate]. *)
Record state : Type := mkState {
  m_english : option handle;
  m_multilingual : option handle;
  m_voice_clone : option handle;
  files : list string;
  next_tmp : nat;
  loads : list variant;
  calls : list gen_call
}.

Definition M (A : Type) : Type := state -> result A * state.

Definition ret {A} (a : A) : M A := fun s => (Ok a, s).
Definition raise {A} (e : exn) : M A := fun s => (Exc e, s).
Definition bind {A B} (m : M A) (k : A -> M B) : M B :=
  fun s => match m s with
           | (Ok a, s') => k a s'
           | (Exc e, s') => (Exc e, s')
           end.

Notation "x <- m ;; k" := (bind m (fun x => k))
  (at level 61, m at next level, right associativity).
Notation "m ;;; k" := (bind m (fun _ => k))
  (at level 61, right associativity).

Definition gets {A} (f : state -> A) : M A := fun s => (Ok (f s), s).
Definition modify (f : state -> state) : M unit := fun s => (Ok tt, f s).
Definition lift {A} (r : result A) : M A := fun s => (r, s).

(** [try: m except Exception as e: h(e)] *)
Definition try_except {A} (m : M A) (h : exn -> M A) : M A :=
  fun s => match m s with
           | (Ok a, s') => (Ok a, s')
           | (Exc e, s') => h e s'
           end.

(** Run [m] and report its outcome as a value; never raises. *)
Definition catch {A} (m : M A) : M (result A) :=
  fun s => let (r, s') := m s in (Ok r, s').

(** [try: m finally: f] where [f] itself never raises: the outcome of [m]
    is kept, [f] runs on every exit path. *)
Definition try_finally {A} (m : M A) (f : M unit) : M A :=
  fun s => let (r, s') := m s in
           match f s' with
           | (Ok _, s'') => (r, s'')
           | (Exc e, s'') => (Exc e, s'')
           end.

(** ** [base64], as the standard library implements it *)

(** Decimal rendering of a count, as [%zd] / [str(n)] print it. *)
Definition nat_str (n : nat) : string := NilZero.string_of_uint (Nat.to_uint n).

Definition byte_of_Z (z : Z) : Byte.byte :=
  match Byte.of_N (Z.to_N (Z.land z 255)) with Some b => b | None => Byte.x00 end.

(** [table_a2b_base64]: the 6-bit value of a base64 character. *)
Definition b64_value (c : ascii) : option Z :=
  let n := Z.of_nat (nat_of_ascii c) in
  if (65 <=? n)%Z && (n <=? 90)%Z then Some (n - 65)%Z
  else if (97 <=? n)%Z && (n <=? 122)%Z then Some (n - 71)%Z
  else if (48 <=? n)%Z && (n <=? 57)%Z then Some (n + 4)%Z
  else if (n =? 43)%Z then Some 62%Z
  else if (n =? 47)%Z then Some 63%Z
  else None.

(** The main loop of [binascii.a2b_base64] with [strict_mode=False]:
    characters outside the alphabet are skipped; a pad sequence that
    completes a quad stops the parse ([goto done]).  Returns the decoded
    bytes (as integers), the final [quad_pos] and whether the loop left
    through [done]. *)
Fixpoint a2b_loop (cs : list ascii) (quad_pos : nat) (leftchar : Z)
    (pads : nat) (acc : list Z) : list Z * nat * bool :=
  match cs with
  | [] => (rev acc, quad_pos, false)
  | c :: cs' =>
      if Ascii.eqb c "=" then
        if Nat.leb 2 quad_pos then
          if Nat.leb 4 (quad_pos + S pads) then (rev acc, quad_pos, true)
          else a2b_loop cs' quad_pos leftchar (S pads) acc
        else a2b_loop cs' quad_pos leftchar pads acc
      else
        match b64_value c with
        | None => a2b_loop cs' quad_pos leftchar pads acc
        | Some v =>
            match quad_pos with
            | 0 => a2b_loop cs' 1 v 0 acc
            | 1 => a2b_loop cs' 2 (Z.land v 15) 0
                     (Z.land (Z.lor (Z.shiftl leftchar 2) (Z.shiftr v 4)) 255 :: acc)
            | 2 => a2b_loop cs' 3 (Z.land v 3) 0
                     (Z.land (Z.lor (Z.shiftl leftchar 4) (Z.shiftr v 2)) 255 :: acc)
            | _ => a2b_loop cs' 0 0 0
                     (Z.land (Z.lor (Z.shiftl leftchar 6) v) 255 :: acc)
            end
        end
  end.

Definition binascii_error (msg : string) : exn := mkExn "binascii.Error" msg.

(** [binascii.a2b_base64(s, strict_mode=False)] *)
Definition a2b_base64 (cs : list ascii) : result bytes :=
  match a2b_loop cs 0 0 0 [] with
  | (out, _, true) => Ok (map byte_of_Z out)
  | (out, 0, false) => Ok (map byte_of_Z out)
  | (out, 1, false) =>
      Exc (binascii_error
             ("Invalid base64-encoded string: number of data characters ("
              ++ nat_str (length out / 3 * 4 + 1)
              ++ ") cannot be 1 more than a multiple of 4"))
  | (_, _, false) => Exc (binascii_error "Incorrect padding")
  end.

(** [base64.b64decode(s)]: [_bytes_from_decode_data] then [a2b_base64]. *)
Definition b64decode (v : pyval) : result bytes :=
  match v with
  | PStr s =>
      let cs := list_ascii_of_string s in
      if forallb (fun c => Nat.ltb (nat_of_ascii c) 128) cs then a2b_base64 cs
      else Exc (mkExn "ValueError"
                  "string argument should contain only ASCII characters")
  | _ => Exc (mkExn "TypeError"
                ("argument should be a bytes-like object or ASCII string, not '"
                 ++ type_name v ++ "'"))
  end.

Definition b64_char (z : Z) : ascii :=
  let n := Z.land z 63 in
  ascii_of_nat (Z.to_nat
    (if (n <? 26)%Z then n + 65 else if (n <? 52)%Z then n + 71
     else if (n <? 62)%Z then n - 4 else if (n =? 62)%Z then 43 else 47)%Z).

(** [base64.b64encode(data).decode("utf-8")] *)
Fixpoint b64encode_list (bs : list Z) : list ascii :=
  match bs with
  | [] => []
  | [a] => [b64_char (Z.shiftr a 2); b64_char (Z.shiftl (Z.land a 3) 4); "="%char; "="%char]
  | [a; b] => [b64_char (Z.shiftr a 2);
               b64_char (Z.lor (Z.shiftl (Z.land a 3) 4) (Z.shiftr b 4));
               b64_char (Z.shiftl (Z.land b 15) 2); "="%char]
  | a :: b :: c :: rest =>
      b64_char (Z.shiftr a 2)
      :: b64_char (Z.lor (Z.shiftl (Z.land a 3) 4) (Z.shiftr b 4))
      :: b64_char (Z.lor (Z.shiftl (Z.land b 15) 2) (Z.shiftr c 6))
      :: b64_char c :: b64encode_list rest
  end.

Definition b64encode (bs : bytes) : string :=
  string_of_list_ascii (b64encode_list (map (fun b => Z.of_N (Byte.to_N b)) bs)).

(** ** Collaborators *)

(** What the handler calls but does not implement.
    - [from_pretrained v n]: [ChatterboxTTS / ChatterboxMultilingualTTS /
      ChatterboxVC.from_pretrained(device=device)], as the [n]-th load of
      the process (so a load may fail once and succeed later);
    - [generate c]: [model.generate(...)] with the keyword arguments in [c];
    - [model_sr h]: [model.sr];
    - [ta_save w sr]: [ta.save(buffer, w, sr, format="wav")], giving the
      buffer's bytes;
    - [write_fails path data]: whether [temp_file.write(data)] /
      [temp_file.close()] raises (e.g. a full disk);
    - [unlink_fails path]: whether [os.unlink(path)] raises. *)
Record env : Type := mkEnv {
  from_pretrained : variant -> nat -> result handle;
  generate : gen_call -> result wav;
  model_sr : handle -> Z;
  ta_save : wav -> Z -> result bytes;
  write_fails : string -> bytes -> option exn;
  unlink_fails : string -> option exn
}.

Definition slot_of (v : variant) (s : state) : option handle :=
  match v with
  | English => m_english s
  | Multilingual => m_multilingual s
  | VoiceClone => m_voice_clone s
  end.

Definition set_slot (v : variant) (h : handle) (s : state) : state :=
  match v with
  | English =>
      mkState (Some h) (m_multilingual s) (m_voice_clone s) (files s) (next_tmp s) (loads s) (calls s)
  | Multilingual =>
      mkState (m_english s) (Some h) (m_voice_clone s) (files s) (next_tmp s) (loads s) (calls s)
  | VoiceClone =>
      mkState (m_english s) (m_multilingual s) (Some h) (files s) (next_tmp s) (loads s) (calls s)
  end.

Definition log_load (v : variant) (s : state) : state :=
  mkState (m_english s) (m_multilingual s) (m_voice_clone s) (files s) (next_tmp s)
    (loads s ++ [v]) (calls s).

Definition log_call (c : gen_call) (s : state) : state :=
  mkState (m_english s) (m_multilingual s) (m_voice_clone s) (files s) (next_tmp s)
    (loads s) (calls s ++ [c]).

(** A fresh [NamedTemporaryFile(delete=False, suffix=".wav")] exists. *)
Definition create_temp (path : string) (s : state) : state :=
  mkState (m_english s) (m_multilingual s) (m_voice_clone s) (path :: files s)
    (S (next_tmp s)) (loads s) (calls s).

Definition remove_file (path : string) (s : state) : state :=
  mkState (m_english s) (m_multilingual s) (m_voice_clone s)
    (filter (fun p => negb (String.eqb p path)) (files s))
    (next_tmp s) (loads s) (calls s).

Definition variant_key (v : variant) : string :=
  match v with
  | English => "english"
  | Multilingual => "multilingual"
  | VoiceClone => "voice_clone"
  end.

Definition temp_name (n : nat) : string := "/tmp/tmp" ++ nat_str n ++ ".wav".

Definition error_resp (msg : string) : pyval := PDict [("error", PStr msg)].

Definition url_message : string := "URL format not implemented. Use base64.".

(** ** The handler *)

Section Handler.

Variable E : env.

(** [d[k]] *)
Definition py_getitem (d : pyval) (k : string) : M pyval :=
  match d with
  | PDict kv =>
      match assoc k kv with
      | Some v => ret v
      | None => raise (mkExn "KeyError" ("'" ++ k ++ "'"))
      end
  | PList _ => raise (mkExn "TypeError" "list indices must be integers or slices, not str")
  | PStr _ => raise (mkExn "TypeError" "string indices must be integers")
  | _ => raise (mkExn "TypeError" ("'" ++ type_name d ++ "' object is not subscriptable"))
  end.

(** [d.get(k, default)] *)
Definition py_get (d : pyval) (k : string) (default : pyval) : M pyval :=
  match d with
  | PDict kv => ret (match assoc k kv with Some v => v | None => default end)
  | _ => raise (mkExn "AttributeError"
                  ("'" ++ type_name d ++ "' object has no attribute 'get'"))
  end.

(** [if _models[key] is None: _models[key] = X.from_pretrained(device=device)]
    followed by [return _models[key]]; the [print] is not modelled. *)
Definition load_slot (v : variant) : M handle :=
  cur <- gets (slot_of v) ;;
  match cur with
  | Some h => ret h
  | None =>
      n <- gets (fun s => length (loads s)) ;;
      modify (log_load v) ;;;
      h <- lift (from_pretrained E v n) ;;
      modify (set_slot v h) ;;;
      ret h
  end.

(** [get_model(language_id=None, mode="tts")] *)
Definition get_model (language_id : pyval) (mode : string) : M (handle * string) :=
  if String.eqb mode "voice_clone" then
    h <- load_slot VoiceClone ;; ret (h, "voice_clone")
  else if is_none language_id || py_eq_str language_id "en" then
    h <- load_slot English ;; ret (h, "english")
  else
    h <- load_slot Multilingual ;; ret (h, "multilingual").

(** [save_base64_to_temp_file(base64_data, suffix=".wav")] *)
Definition save_base64_to_temp_file (base64_data : pyval) : M string :=
  audio_data <- lift (b64decode base64_data) ;;
  n <- gets next_tmp ;;
  let name := temp_name n in
  modify (create_temp name) ;;;
  match write_fails E name audio_data with
  | Some e => raise e
  | None => ret name
  end.

(** [os.path.exists(path)] *)
Definition path_exists (path : string) : M bool :=
  gets (fun s => existsb (String.eqb path) (files s)).

(** [os.unlink(path)] *)
Definition os_unlink (path : string) : M unit :=
  match unlink_fails E path with
  | Some e => raise e
  | None => modify (remove_file path)
  end.

(** [if temp_path and os.path.exists(temp_path):
        try: os.unlink(temp_path)
        except: pass] *)
Definition remove_temp (temp_path : option string) : M unit :=
  match temp_path with
  | Some path =>
      if negb (String.eqb path "") then
        ex <- path_exists path ;;
        if ex then try_except (os_unlink path) (fun _ => ret tt) else ret tt
      else ret tt
  | None => ret tt
  end.

(** [for temp_path in [...]: ...] *)
Fixpoint cleanup_paths (paths : list (option string)) : M unit :=
  match paths with
  | [] => ret tt
  | p :: ps => remove_temp p ;;; cleanup_paths ps
  end.

(** [model.generate(...)], logged with its keyword arguments *)
Definition generate_call (c : gen_call) : M wav :=
  modify (log_call c) ;;; lift (generate E c).

(** The [try: ... finally: ...] block of [handle_tts], from the model call
    to the response. *)
Definition tts_generate_and_encode (model : handle) (model_type : string)
    (text language_id voice_sample_base64 audio_prompt_path : pyval)
    (repetition_penalty min_p top_p exaggeration cfg_weight temperature
     return_format : pyval) : M pyval :=
  wav <- (if String.eqb model_type "multilingual" && truthy language_id then
            generate_call (GenTTS model text (Some language_id) repetition_penalty
                             min_p top_p audio_prompt_path exaggeration cfg_weight
                             temperature)
          else
            generate_call (GenTTS model text None repetition_penalty
                             min_p top_p audio_prompt_path exaggeration cfg_weight
                             temperature)) ;;
  buffer <- lift (ta_save E wav (model_sr E model)) ;;
  let voice_cloned :=
    PBool (negb (is_none voice_sample_base64) || negb (is_none audio_prompt_path)) in
  if py_eq_str return_format "base64" then
    ret (PDict [("audio_base64", PStr (b64encode buffer));
                ("sample_rate", PInt (model_sr E model));
                ("format", PStr "wav");
                ("language_id", language_id);
                ("model_type", PStr model_type);
                ("mode", PStr "tts");
                ("voice_cloned", voice_cloned)])
  else
    ret (PDict [("message", PStr url_message);
                ("sample_rate", PInt (model_sr E model));
                ("language_id", language_id);
                ("model_type", PStr model_type);
                ("mode", PStr "tts");
                ("voice_cloned", voice_cloned)]).

(** [handle_tts(job_input)] *)
Definition handle_tts (job_input : pyval) : M pyval :=
  text <- py_get job_input "text" PNone ;;
  if negb (truthy text) then ret (error_resp "No text provided") else
  language_id <- py_get job_input "language_id" PNone ;;
  voice_sample_base64 <- py_get job_input "voice_sample_base64" PNone ;;
  mm <- get_model language_id "tts" ;;
  let (model, model_type) := mm in
  audio_prompt_path <- py_get job_input "audio_prompt_path" PNone ;;
  (* voice_sample_temp_path = None; if voice_sample_base64: try ... except *)
  saved <- (if truthy voice_sample_base64 then
              catch (p <- save_base64_to_temp_file voice_sample_base64 ;; ret (Some p))
            else ret (Ok None)) ;;
  match saved with
  | Exc e => ret (error_resp ("Invalid voice_sample_base64: " ++ exn_str e))
  | Ok voice_sample_temp_path =>
      let audio_prompt_path :=
        match voice_sample_temp_path with
        | Some p => PStr p
        | None => audio_prompt_path
        end in
      repetition_penalty <- py_get job_input "repetition_penalty" (PNum (12 # 10)) ;;
      min_p <- py_get job_input "min_p" (PNum (5 # 100)) ;;
      top_p <- py_get job_input "top_p" (PNum 1) ;;
      exaggeration <- py_get job_input "exaggeration" (PNum (5 # 10)) ;;
      cfg_weight <- py_get job_input "cfg_weight" (PNum (5 # 10)) ;;
      temperature <- py_get job_input "temperature" (PNum (8 # 10)) ;;
      return_format <- py_get job_input "return_format" (PStr "base64") ;;
      try_finally
        (tts_generate_and_encode model model_type text language_id
           voice_sample_base64 audio_prompt_path repetition_penalty min_p top_p
           exaggeration cfg_weight temperature return_format)
        (remove_temp voice_sample_temp_path)
  end.

(** The [try:] block of [handle_voice_clone] after both temporary files
    exist. *)
Definition vc_generate_and_encode (model : handle) (model_type : string)
    (source_path target_path : string) (return_format : pyval) : M pyval :=
  wav <- generate_call (GenVC model source_path target_path) ;;
  buffer <- lift (ta_save E wav (model_sr E model)) ;;
  if py_eq_str return_format "base64" then
    ret (PDict [("audio_base64", PStr (b64encode buffer));
                ("sample_rate", PInt (model_sr E model));
                ("format", PStr "wav");
                ("model_type", PStr model_type);
                ("mode", PStr "voice_clone")])
  else
    ret (PDict [("message", PStr url_message);
                ("sample_rate", PInt (model_sr E model));
                ("model_type", PStr model_type);
                ("mode", PStr "voice_clone")]).

(** [handle_voice_clone(job_input)].  The [try:] block is split at the two
    assignments of [source_path] and [target_path], so that each exit path
    runs the [finally:] loop on the values those variables hold there. *)
Definition handle_voice_clone (job_input : pyval) : M pyval :=
  source_audio_base64 <- py_get job_input "source_audio_base64" PNone ;;
  target_voice_base64 <- py_get job_input "target_voice_base64" PNone ;;
  if negb (truthy source_audio_base64) then
    ret (error_resp "No source_audio_base64 provided") else
  if negb (truthy target_voice_base64) then
    ret (error_resp "No target_voice_base64 provided") else
  return_format <- py_get job_input "return_format" (PStr "base64") ;;
  mm <- get_model PNone "voice_clone" ;;
  let (model, model_type) := mm in
  r1 <- catch (save_base64_to_temp_file source_audio_base64) ;;
  match r1 with
  | Exc e => try_finally (raise e) (cleanup_paths [None; None])
  | Ok source_path =>
      r2 <- catch (save_base64_to_temp_file target_voice_base64) ;;
      match r2 with
      | Exc e => try_finally (raise e) (cleanup_paths [Some source_path; None])
      | Ok target_path =>
          try_finally
            (vc_generate_and_encode model model_type source_path target_path
               return_format)
            (cleanup_paths [Some source_path; Some target_path])
      end
  end.

(** The [try:] block of [handler(job)]. *)
Definition handler_body (job : pyval) : M pyval :=
  job_input <- py_getitem job "input" ;;
  mode <- py_get job_input "mode" (PStr "tts") ;;
  if py_eq_str mode "voice_clone" then handle_voice_clone job_input
  else handle_tts job_input.

(** [handler(job)] *)
Definition handler (job : pyval) : M pyval :=
  try_except (handler_body job) (fun e => ret (error_resp (exn_str e))).

End Handler.

(** ** A concrete environment for examples: every collaborator succeeds. *)

Definition riff : bytes := map byte_of_Z [82; 73; 70; 70]%Z.

Definition env_ok : env :=
  mkEnv (fun _ n => Ok n) (fun _ => Ok [0; 1]%Z) (fun _ => 24000%Z)
        (fun _ _ => Ok riff) (fun _ _ => None) (fun _ => None).

Definition st0 : state := mkState None None None [] 0 [] [].

Definition job_of (kv : list (string * pyval)) : pyval := PDict [("input", PDict kv)].

(** ** [get_model] under concurrent invocations

    The serverless runtime may run several [handler] invocations in one
    process.  One call of [get_model] on a slot consists of these steps,
    each atomic under the GIL, with the load itself releasing it:
    test [_models[key] is None], call [from_pretrained], store the handle,
    [return _models[key]].  Nothing serialises two calls. *)

Inductive pc : Type :=
| PcCheck
| PcLoad
| PcStore (h : handle)
| PcReturn
| PcDone (r : option handle).

Record cstate : Type := mkCState {
  c_slot : option handle;
  c_loads : nat;
  c_threads : list pc
}.

(** One step of a thread; the [n]-th load of the process yields handle [n]. *)
Definition thread_step (slot : option handle) (nloads : nat) (p : pc)
    : option handle * nat * pc :=
  match p with
  | PcCheck =>
      match slot with
      | None => (slot, nloads, PcLoad)
      | Some _ => (slot, nloads, PcReturn)
      end
  | PcLoad => (slot, S nloads, PcStore nloads)
  | PcStore h => (Some h, nloads, PcReturn)
  | PcReturn => (slot, nloads, PcDone slot)
  | PcDone r => (slot, nloads, PcDone r)
  end.

Fixpoint replace_nth {A} (l : list A) (i : nat) (x : A) : list A :=
  match l, i with
  | [], _ => []
  | _ :: t, 0 => x :: t
  | y :: t, S j => y :: replace_nth t j x
  end.

(** The scheduler runs thread [i] for one step. *)
Definition cstep (i : nat) (s : cstate) : cstate :=
  match nth_error (c_threads s) i with
  | None => s
  | Some p =>
      let '(slot, n, p') := thread_step (c_slot s) (c_loads s) p in
      mkCState slot n (replace_nth (c_threads s) i p')
  end.

Definition run (sched : list nat) (s : cstate) : cstate :=
  fold_left (fun s i => cstep i s) sched s.

(** [N] invocations entering [get_model] on an empty slot. *)
Definition cinit (N : nat) : cstate := mkCState None 0 (repeat PcCheck N).

Definition all_done (s : cstate) : bool :=
  forallb (fun p => match p with PcDone _ => true | _ => false end) (c_threads s).

Definition returned (s : cstate) : list (option handle) :=
  map (fun p => match p with PcDone r => r | _ => None end) (c_threads s).


(** ** Vocabulary of the properties *)

(** [r[k]] for a response dict. *)
Definition resp_get (k : string) (r : pyval) : option pyval :=
  match r with PDict kv => assoc k kv | _ => None end.

(** The three response shapes the handler builds. *)
Definition resp_shape (r : pyval) : Prop :=
  (exists msg, r = error_resp msg)
  \/ (exists a rest, r = PDict (("audio_base64", PStr a) :: rest)
                     /\ assoc "error" rest = None /\ assoc "message" rest = None)
  \/ (exists rest, r = PDict (("message", PStr url_message) :: rest)
                   /\ assoc "error" rest = None /\ assoc "audio_base64" rest = None).

(** Spec reading of a well-formed JobResponse: a usable audio payload or a
    non-empty [error] string, exactly one of the two. *)
Definition has_audio (r : pyval) : bool :=
  match resp_get "audio_base64" r with Some (PStr _) => true | _ => false end.
Definition has_nonempty_error (r : pyval) : bool :=
  match resp_get "error" r with Some (PStr e) => negb (String.eqb e "") | _ => false end.
Definition well_formed (r : pyval) : bool := xorb (has_audio r) (has_nonempty_error r).

(** The variant [get_model] selects, read off its two tests. *)
Definition model_variant (language_id : pyval) (mode : string) : variant :=
  if String.eqb mode "voice_clone" then VoiceClone
  else if is_none language_id || py_eq_str language_id "en" then English
  else Multilingual.

(** The [language_id] keyword of a TTS model call ([None]: not passed). *)
Definition call_language_id (c : gen_call) : option (option pyval) :=
  match c with
  | GenTTS _ _ l _ _ _ _ _ _ _ => Some l
  | GenVC _ _ _ => None
  end.

Definition dict_get (kv : list (string * pyval)) (k : string) (d : pyval) : pyval :=
  match assoc k kv with Some v => v | None => d end.

(** [job["input"].get("return_format", "base64")], when [job["input"]] is a dict. *)
Definition job_return_format (job : pyval) : option pyval :=
  match job with
  | PDict jkv =>
      match assoc "input" jkv with
      | Some (PDict kv) => Some (dict_get kv "return_format" (PStr "base64"))
      | _ => None
      end
  | _ => None
  end.

(** A response carries audio only for [return_format == "base64"], and the
    "not implemented" message only otherwise. *)
Definition format_ok (rf : pyval) (r : pyval) : Prop :=
  (has_audio r = true -> py_eq_str rf "base64" = true) /\
  (resp_get "message" r = Some (PStr url_message) -> py_eq_str rf "base64" = false).

(** The response of the [return_format != "base64"] branch, built from
    the one of the base64 branch: [audio_base64] and [format] dropped,
    the message put first.  Any other response is left as it is. *)
Definition url_of (r : pyval) : pyval :=
  match r with
  | PDict (("audio_base64", _) :: rest) =>
      PDict (("message", PStr url_message)
               :: filter (fun kv => negb (String.eqb (fst kv) "format")) rest)
  | _ => r
  end.

Definition map_result {A B} (f : A -> B) (r : result A) : result B :=
  match r with Ok a => Ok (f a) | Exc e => Exc e end.

(** Environments for the concrete runs. *)
Definition env_generate_fails (msg : string) : env :=
  mkEnv (fun _ n => Ok n) (fun _ => Exc (mkExn "RuntimeError" msg)) (fun _ => 24000%Z)
        (fun _ _ => Ok riff) (fun _ _ => None) (fun _ => None).

Definition enospc : exn := mkExn "OSError" "[Errno 28] No space left on device".

Definition env_disk_full : env :=
  mkEnv (fun _ n => Ok n) (fun _ => Ok [0; 1]%Z) (fun _ => 24000%Z)
        (fun _ _ => Ok riff) (fun _ _ => Some enospc) (fun _ => None).

(** Two invocations that both test the empty slot before either stores. *)
Definition race_schedule : list nat := [0; 1; 0; 0; 0; 1; 1; 1].

(** Spec reading of the model cache under concurrency: every completed
    run of [N >= 1] invocations performs one load and all return the same
    handle. *)
Definition single_flight (N : nat) (sched : list nat) : Prop :=
  let s := run sched (cinit N) in
  all_done s = true ->
  c_loads s = 1 /\ forall r, In r (returned s) -> r = hd None (returned s).

(** Partial correctness of a computation: every value it returns
    satisfies [Q]. *)
Definition post {A} (m : M A) (Q : A -> Prop) : Prop :=
  forall s, match fst (m s) with Ok a => Q a | Exc _ => True end.

(** [m] with [f] applied to the value it returns. *)
Definition mapM {A} (f : A -> A) (m : M A) : M A :=
  fun s => let (r, s') := m s in (map_result f r, s').

(** [m1] behaves as [m2] up to [f] on the returned value. *)
Definition sim {A} (f : A -> A) (m1 m2 : M A) : Prop :=
  forall s, m1 s = mapM f m2 s.

(** [m] neither calls a model nor loads one. *)
Definition frame {A} (m : M A) : Prop :=
  forall s r s', m s = (r, s') -> calls s' = calls s /\ loads s' = loads s.

(** ** Vocabulary of the further properties *)

(** The decoder recovers each 6-bit value [n < 64] that the encoder
    writes as a character; the character is not the pad and is ASCII. *)
Definition b64_char_ok (n : nat) : bool :=
  let z := Z.of_nat n in
  match b64_value (b64_char z) with Some v => Z.eqb v z | None => false end
  && negb (Ascii.eqb (b64_char z) "=") && Nat.ltb (nat_of_ascii (b64_char z)) 128.

Definition byte_range (z : Z) : Prop := (0 <= z < 256)%Z.

(** The second and third characters of an encoded quad. *)
Definition b64_q2 (a b : Z) : Z := Z.lor (Z.shiftl (Z.land a 3) 4) (Z.shiftr b 4).
Definition b64_q3 (b c : Z) : Z := Z.lor (Z.shiftl (Z.land b 15) 2) (Z.shiftr c 6).

(** The bit identities behind decoding an encoded quad, for two bytes
    [a], [b] (first output byte, and the [leftchar] kept for the second),
    for [b], [c] (second and third output bytes), and for the padded
    tails of one and two bytes. *)
Definition out1_ok (a b : nat) : bool :=
  let a := Z.of_nat a in let b := Z.of_nat b in
  Z.eqb (Z.land (Z.lor (Z.shiftl (Z.land (Z.shiftr a 2) 63) 2)
                       (Z.shiftr (Z.land (b64_q2 a b) 63) 4)) 255) a
  && Z.eqb (Z.land (Z.land (b64_q2 a b) 63) 15) (Z.shiftr b 4).

Definition out23_ok (b c : nat) : bool :=
  let b := Z.of_nat b in let c := Z.of_nat c in
  Z.eqb (Z.land (Z.lor (Z.shiftl (Z.shiftr b 4) 4) (Z.shiftr (Z.land (b64_q3 b c) 63) 2)) 255) b
  && Z.eqb (Z.land (Z.lor (Z.shiftl (Z.land (Z.land (b64_q3 b c) 63) 3) 6) (Z.land c 63)) 255) c.

Definition tail_ok (a : nat) : bool :=
  let a := Z.of_nat a in
  Z.eqb (Z.land (Z.lor (Z.shiftl (Z.land (Z.shiftr a 2) 63) 2)
                       (Z.shiftr (Z.land (Z.shiftl (Z.land a 3) 4) 63) 4)) 255) a
  && Z.eqb (Z.land (Z.lor (Z.shiftl (Z.shiftr a 4) 4)
                          (Z.shiftr (Z.land (Z.shiftl (Z.land a 15) 2) 63) 2)) 255) a.

(** From [s] to [s']: no cached model is dropped or replaced; at most
    [nl] loads were attempted, each of a variant whose slot was empty in
    [s]; at most [nc] model calls were made. *)
Definition steps (nl nc : nat) (s s' : state) : Prop :=
  (forall v h, slot_of v s = Some h -> slot_of v s' = Some h) /\
  (exists lv, loads s' = (loads s ++ lv)%list /\ length lv <= nl /\
              forall v, In v lv -> slot_of v s = None) /\
  (exists lc, calls s' = (calls s ++ lc)%list /\ length lc <= nc).

(** Every run of [m], whatever its outcome, is such a step. *)
Definition effect {A} (m : M A) (nl nc : nat) : Prop :=
  forall s r s', m s = (r, s') -> steps nl nc s s'.

(** [m] neither creates nor removes a file, and draws no temporary name. *)
Definition keeps_files {A} (m : M A) : Prop :=
  forall s r s', m s = (r, s') -> files s' = files s /\ next_tmp s' = next_tmp s.

(** No file of [s] carries a temporary name [tempfile] may still hand out. *)
Definition temps_fresh (s : state) : Prop :=
  forall n, next_tmp s <= n -> ~ In (temp_name n) (files s).

(** The files that remain after [os.unlink(p)]. *)
Definition drop_path (p : string) (l : list string) : list string :=
  filter (fun q => negb (String.eqb q p)) l.

Definition drop_paths (ps : list (option string)) (l : list string) : list string :=
  fold_left (fun l p => match p with Some q => drop_path q l | None => l end) ps l.

(** [E] with [os.unlink]'s failure behaviour replaced by [u]. *)
Definition with_unlink (E : env) (u : string -> option exn) : env :=
  mkEnv (from_pretrained E) (generate E) (model_sr E) (ta_save E) (write_fails E) u.

(** Two states that differ at most in which files exist. *)
Definition same_but_files (s1 s2 : state) : Prop :=
  m_english s1 = m_english s2 /\ m_multilingual s1 = m_multilingual s2 /\
  m_voice_clone s1 = m_voice_clone s2 /\ next_tmp s1 = next_tmp s2 /\
  loads s1 = loads s2 /\ calls s1 = calls s2.

(** [m1] and [m2] return the same outcome from states that differ at most
    in their files, and end in such states. *)
Definition rsim {A} (m1 m2 : M A) : Prop :=
  forall s1 s2, same_but_files s1 s2 ->
    fst (m1 s1) = fst (m2 s2) /\ same_but_files (snd (m1 s1)) (snd (m2 s2)).

(** The handle a logged model call was made on. *)
Definition call_model (c : gen_call) : handle :=
  match c with GenTTS h _ _ _ _ _ _ _ _ _ => h | GenVC h _ _ => h end.

(** From call log [l] to call log [l'], returning [r]: if [r] carries
    [audio_base64], exactly one model call [c] was logged, and the audio
    decodes to the bytes [ta.save] wrote from the wav [c] generated at the
    sample rate of [c]'s model, the [sample_rate] [r] reports. *)
Definition audio_logged (E : env) (l l' : list gen_call) (r : pyval) : Prop :=
  forall a, resp_get "audio_base64" r = Some (PStr a) ->
  exists c w bs, l' = (l ++ [c])%list /\ generate E c = Ok w /\
    ta_save E w (model_sr E (call_model c)) = Ok bs /\ b64decode (PStr a) = Ok bs /\
    resp_get "sample_rate" r = Some (PInt (model_sr E (call_model c))).

(** Every successful run of [m] relates the call logs before and after it,
    and its value, by [P]. *)
Definition hoare {A} (m : M A) (P : list gen_call -> list gen_call -> A -> Prop) : Prop :=
  forall s r s', m s = (Ok r, s') -> P (calls s) (calls s') r.

Definition is_dict (v : pyval) : bool := match v with PDict _ => true | _ => false end.

(** ** [example_tts_voice_clone.py]: the five example requests *)

Definition english_tts_request : list (string * pyval) :=
  [("mode", PStr "tts");
   ("text", PStr "Hello, this is a regular English text-to-speech generation.");
   ("temperature", PNum (8 # 10));
   ("cfg_weight", PNum (5 # 10))].

Definition french_tts_request : list (string * pyval) :=
  [("mode", PStr "tts");
   ("text", PStr "Bonjour, comment ça va? Ceci est un exemple de synthèse vocale multilingue.");
   ("language_id", PStr "fr");
   ("temperature", PNum (8 # 10))].

Definition voice_sample_b64 : string := "UklGRiQAAABXQVZFZm10IBAAAAABAAEA...".

Definition tts_with_voice_request : list (string * pyval) :=
  [("mode", PStr "tts");
   ("text", PStr "Hello, this text will be spoken in the voice from the provided sample.");
   ("voice_sample_base64", PStr voice_sample_b64);
   ("exaggeration", PNum (7 # 10));
   ("temperature", PNum (8 # 10))].

Definition multilingual_tts_with_voice_request : list (string * pyval) :=
  [("mode", PStr "tts");
   ("text", PStr "Bonjour, ce texte français sera prononcé avec la voix de l'échantillon fourni.");
   ("language_id", PStr "fr");
   ("voice_sample_base64", PStr voice_sample_b64);
   ("exaggeration", PNum (6 # 10))].

Definition source_audio_b64 : string := "UklGRiQAAABXQVZFZm10IBAAAAABAAEA...".
Definition target_voice_b64 : string := "UklGRiQAAABXQVZFZm10IBAAAAABAAEA...".

Definition voice_to_voice_request : list (string * pyval) :=
  [("mode", PStr "voice_clone");
   ("source_audio_base64", PStr source_audio_b64);
   ("target_voice_base64", PStr target_voice_b64)].


(** An environment whose collaborators all succeed: [from_pretrained],
    [model.generate] and [ta.save] return the values [fh], [fg] and [fs]
    give, files are written, and [os.unlink] behaves as [u]. *)
Definition env_succeeding (fh : variant -> nat -> handle) (fg : gen_call -> wav)
    (sr : handle -> Z) (fs : wav -> Z -> bytes) (u : string -> option exn) : env :=
  mkEnv (fun v n => Ok (fh v n)) (fun c => Ok (fg c)) sr (fun w r => Ok (fs w r))
        (fun _ _ => None) u.

(** The response to an example sent as a job's input, on a cold process. *)
Definition example_response (E : env) (kv : list (string * pyval)) : pyval :=
  match fst (handler E (job_of kv) st0) with Ok r => r | Exc _ => PNone end.

(** * Properties *)

(** ** Sanity checks on concrete inputs *)
Example b64decode_ex1 : b64decode (PStr "UklGRg==") = Ok (map byte_of_Z [82; 73; 70; 70]%Z).
Proof. reflexivity. Qed.
Example b64encode_ex : b64encode (map byte_of_Z [82; 73; 70; 70]%Z) = "UklGRg==".
Proof. reflexivity. Qed.
Example handler_ex_tts :
  fst (handler env_ok (job_of [("text", PStr "Hello world")]) st0) =
  Ok (PDict [("audio_base64", PStr "UklGRg=="); ("sample_rate", PInt 24000);
             ("format", PStr "wav"); ("language_id", PNone);
             ("model_type", PStr "english"); ("mode", PStr "tts");
             ("voice_cloned", PBool false)]).
Proof. reflexivity. Qed.
Example b64decode_ex2 : b64decode (PStr "!!!not-base64!!!") =
  Exc (binascii_error "Invalid base64-encoded string: number of data characters (9) cannot be 1 more than a multiple of 4").
Proof. reflexivity. Qed.
Example b64decode_ex3 : b64decode (PStr "ab") = Exc (binascii_error "Incorrect padding").
Proof. reflexivity. Qed.
Example handler_ex_clone :
  handler env_ok (job_of [("mode", PStr "voice_clone");
                          ("source_audio_base64", PStr "UklGRg==");
                          ("target_voice_base64", PStr "UklGRg==")]) st0 =
  (Ok (PDict [("audio_base64", PStr "UklGRg=="); ("sample_rate", PInt 24000);
              ("format", PStr "wav"); ("model_type", PStr "voice_clone");
              ("mode", PStr "voice_clone")]),
   mkState None None (Some 0) [] 2 [VoiceClone]
     [GenVC 0 "/tmp/tmp0.wav" "/tmp/tmp1.wav"]).
Proof. reflexivity. Qed.
Example handler_ex_no_input :
  handler env_ok (PDict []) st0 = (Ok (error_resp "'input'"), st0).
Proof. reflexivity. Qed.

Example race_run :
  run race_schedule (cinit 2) = mkCState (Some 1) 2 [PcDone (Some 0); PcDone (Some 1)].
Proof. reflexivity. Qed.

(** ** C1: the boundary *)

(** C1: [handler] never raises past its boundary.  Whatever the job and
    the collaborators do, [handler] returns a response; when the [try:]
    block raised an exception [e] (no [input] key, a job that is not a
    dict, a load, generation, decoding or encoding failure), that response
    is exactly the dict [{"error": str(e)}]. *)
Theorem handler_never_raises : forall E job s,
  exists r s', handler E job s = (Ok r, s') /\
    (forall e s1, handler_body E job s = (Exc e, s1) ->
       r = error_resp (exn_str e) /\ s' = s1).
Proof.
  intros E job s. unfold handler, try_except.
  destruct (handler_body E job s) as [[a|e] s1] eqn:Hb.
  - exists a, s1. split; [reflexivity|]. intros e s2 H. discriminate H.
  - exists (error_resp (exn_str e)), s1. split; [reflexivity|].
    intros e' s2 H. injection H as -> ->. split; reflexivity.
Qed.

(** ** C2: invalid base64 *)

(** C2: the voice-clone path does not name the field it failed to decode.
    The spec's own example, an invalid [source_audio_base64] next to a
    valid [target_voice_base64], answers with the bare [binascii.Error]
    message; the sibling TTS path does prefix the field name
    ("Invalid voice_sample_base64: ...").  No temporary file is left
    behind in either run. *)
Theorem voice_clone_invalid_source_unnamed :
  handler env_ok (job_of [("mode", PStr "voice_clone");
                          ("source_audio_base64", PStr "!!!not-base64!!!");
                          ("target_voice_base64", PStr "UklGRg==")]) st0 =
    (Ok (error_resp "Invalid base64-encoded string: number of data characters (9) cannot be 1 more than a multiple of 4"),
     mkState None None (Some 0) [] 0 [VoiceClone] [])
  /\ String.prefix "Invalid source_audio_base64"
       "Invalid base64-encoded string: number of data characters (9) cannot be 1 more than a multiple of 4" = false
  /\ handler env_ok (job_of [("text", PStr "Hi");
                             ("voice_sample_base64", PStr "!!!not-base64!!!")]) st0 =
    (Ok (error_resp "Invalid voice_sample_base64: Invalid base64-encoded string: number of data characters (9) cannot be 1 more than a multiple of 4"),
     mkState (Some 0) None None [] 0 [English] []).
Proof. repeat split; reflexivity. Qed.

(** ** C3: the model cache *)

(** C3 (counterexample): two invocations that both find the slot empty
    each load the model, and they return different handles. *)
Lemma single_flight_counterexample :
  ~ (forall N sched, 1 <= N -> single_flight N sched).
Proof.
  intro H.
  destruct (H 2 race_schedule ltac:(lia) eq_refl) as [Hl _].
  vm_compute in Hl. discriminate Hl.
Qed.

(** C3 (amended): for calls that do not overlap, [get_model] returns the
    cached handle of the selected variant without loading; on an empty
    slot it loads once and stores a successful result; a failed load
    stores nothing, so the next call loads again.  Overlapping first calls
    are not serialised: both can load, and they return different
    handles. *)
Theorem get_model_cache : forall E language_id mode s,
  let v := model_variant language_id mode in
  (forall h, slot_of v s = Some h ->
     get_model E language_id mode s = (Ok (h, variant_key v), s)) /\
  (forall h, slot_of v s = None -> from_pretrained E v (length (loads s)) = Ok h ->
     get_model E language_id mode s = (Ok (h, variant_key v), set_slot v h (log_load v s))
     /\ slot_of v (set_slot v h (log_load v s)) = Some h) /\
  (forall e, slot_of v s = None -> from_pretrained E v (length (loads s)) = Exc e ->
     get_model E language_id mode s = (Exc e, log_load v s)
     /\ slot_of v (log_load v s) = None) /\
  run race_schedule (cinit 2) = mkCState (Some 1) 2 [PcDone (Some 0); PcDone (Some 1)].
Proof.
  intros E language_id mode s v.
  unfold v, model_variant, get_model, load_slot, bind, gets, modify, lift, ret.
  destruct (String.eqb mode "voice_clone");
    [| destruct (is_none language_id || py_eq_str language_id "en")];
    cbn [slot_of variant_key];
    (split; [intros h Hs; rewrite Hs; reflexivity|]);
    (split; [intros h Hs Hl; rewrite Hs; cbn [log_load loads];
             change (length (loads s)) with (length (loads s)); rewrite Hl;
             split; reflexivity|]);
    (split; [intros e Hs Hl; rewrite Hs; rewrite Hl; split; [reflexivity|exact Hs]|]);
    reflexivity.
Qed.

Lemma get_model_cache_witness :
  slot_of English st0 = None /\
  get_model env_ok PNone "tts" st0 =
    (Ok (0, "english"), set_slot English 0 (log_load English st0)).
Proof.
  split; [reflexivity|].
  exact (proj1 (proj1 (proj2 (get_model_cache env_ok PNone "tts" st0)) 0 eq_refl eq_refl)).
Defined.

(** ** Reasoning about [M] *)

Lemma post_ret {A} (a : A) (Q : A -> Prop) : Q a -> post (ret a) Q.
Proof. intros HQ s. exact HQ. Qed.

Lemma post_raise {A} (e : exn) (Q : A -> Prop) : post (raise e) Q.
Proof. intros s. exact I. Qed.

Lemma post_bind {A B} (m : M A) (k : A -> M B) (Q : B -> Prop) :
  (forall a, post (k a) Q) -> post (bind m k) Q.
Proof.
  intros Hk s. unfold bind.
  destruct (m s) as [[a|e] s']; [apply Hk | exact I].
Qed.

Lemma post_try_finally {A} (m : M A) (f : M unit) (Q : A -> Prop) :
  post m Q -> post (try_finally m f) Q.
Proof.
  intros Hm s. unfold try_finally.
  specialize (Hm s). destruct (m s) as [r s'].
  destruct (f s') as [[u|e] s'']; [exact Hm | exact I].
Qed.

Lemma post_try_except {A} (m : M A) (h : exn -> M A) (Q : A -> Prop) :
  post m Q -> (forall e, post (h e) Q) -> post (try_except m h) Q.
Proof.
  intros Hm Hh s. unfold try_except.
  specialize (Hm s). destruct (m s) as [[a|e] s']; [exact Hm | apply Hh].
Qed.

Ltac post_step :=
  match goal with
  | |- post (bind _ _) _ => apply post_bind; intro
  | |- post (ret _) _ => apply post_ret
  | |- post (raise _) _ => apply post_raise
  | |- post (try_finally _ _) _ => apply post_try_finally
  | |- post (try_except _ _) _ => apply post_try_except; [|intro]
  | |- post (if ?b then _ else _) _ => destruct b
  | |- post (match ?x with _ => _ end) _ => destruct x
  end.

Ltac solve_shape :=
  unfold resp_shape, error_resp;
  first [ left; eexists; reflexivity
        | right; left; eexists _, _; split; [reflexivity | split; reflexivity]
        | right; right; eexists; split; [reflexivity | split; reflexivity] ].

Lemma tts_shape E job_input : post (handle_tts E job_input) resp_shape.
Proof.
  unfold handle_tts, tts_generate_and_encode.
  repeat post_step; solve_shape.
Qed.

Lemma voice_clone_shape E job_input : post (handle_voice_clone E job_input) resp_shape.
Proof.
  unfold handle_voice_clone, vc_generate_and_encode.
  repeat post_step; solve_shape.
Qed.

Lemma handler_body_shape E job : post (handler_body E job) resp_shape.
Proof.
  unfold handler_body. apply post_bind; intro job_input. apply post_bind; intro mode.
  destruct (py_eq_str mode "voice_clone"); [apply voice_clone_shape | apply tts_shape].
Qed.

Lemma post_bind_py_get {B} kv k d (f : pyval -> M B) (Q : B -> Prop) :
  post (f (dict_get kv k d)) Q -> post (bind (py_get (PDict kv) k d) f) Q.
Proof. intros H s. exact (H s). Qed.

Ltac fmt_step :=
  match goal with
  | |- post (bind (py_get (PDict _) _ _) _) _ => apply post_bind_py_get
  | |- post (bind _ _) _ => apply post_bind; intro
  | |- post (ret _) _ => apply post_ret
  | |- post (raise _) _ => apply post_raise
  | |- post (try_finally _ _) _ => apply post_try_finally
  | |- post (if ?b then _ else _) _ => destruct b eqn:?
  | |- post (match ?x with _ => _ end) _ => destruct x
  end.

Ltac solve_fmt :=
  split; let Hx := fresh in intro Hx; cbn in Hx; first [discriminate Hx | assumption].

Lemma tts_format E kv :
  post (handle_tts E (PDict kv)) (format_ok (dict_get kv "return_format" (PStr "base64"))).
Proof.
  unfold handle_tts, tts_generate_and_encode. repeat fmt_step; solve_fmt.
Qed.

Lemma voice_clone_format E kv :
  post (handle_voice_clone E (PDict kv))
    (format_ok (dict_get kv "return_format" (PStr "base64"))).
Proof.
  unfold handle_voice_clone, vc_generate_and_encode. repeat fmt_step; solve_fmt.
Qed.

Lemma handler_body_format E job s :
  match fst (handler_body E job s) with
  | Ok r => exists rf, job_return_format job = Some rf /\ format_ok rf r
  | Exc _ => True
  end.
Proof.
  unfold handler_body, job_return_format.
  destruct job as [| | | | | |jkv]; try exact I.
  unfold bind at 1, py_getitem.
  destruct (assoc "input" jkv) as [ji|]; [|exact I].
  cbn [ret].
  destruct ji as [| | | | | |kv]; try exact I.
  unfold bind, py_get at 1, ret at 1.
  destruct (py_eq_str _ "voice_clone").
  - pose proof (voice_clone_format E kv s) as H.
    destruct (fst (handle_voice_clone E (PDict kv) s)); [eexists; split; [reflexivity | exact H] | exact I].
  - pose proof (tts_format E kv s) as H.
    destruct (fst (handle_tts E (PDict kv) s)); [eexists; split; [reflexivity | exact H] | exact I].
Qed.

(** ** C4: the shape of a response *)

(** C4 (counterexample): a [return_format="url"] request answers with
    neither audio nor error, and a model exception whose [str()] is empty
    answers with an empty error string. *)
Lemma well_formed_counterexample :
  (match fst (handler env_ok (job_of [("text", PStr "Hi");
                                      ("return_format", PStr "url")]) st0) with
   | Ok r => well_formed r | Exc _ => true end) = false
  /\ (match fst (handler (env_generate_fails "") (job_of [("text", PStr "Hi")]) st0) with
      | Ok r => well_formed r | Exc _ => true end) = false.
Proof. split; reflexivity. Qed.

(** C4 (amended): every response of [handler] has one of three shapes: a
    dict holding only [error]; a success dict led by [audio_base64] with
    no [error] and no [message]; or a dict led by the "not implemented"
    message with neither [audio_base64] nor [error].  Audio comes only for
    a [return_format] equal to "base64", the message only for any other
    [return_format].  Audio and error never come together. *)
Theorem handler_response_shape : forall E job s,
  match fst (handler E job s) with
  | Ok r => resp_shape r /\
      (has_audio r = true ->
       exists rf, job_return_format job = Some rf /\ py_eq_str rf "base64" = true) /\
      (resp_get "message" r = Some (PStr url_message) ->
       exists rf, job_return_format job = Some rf /\ py_eq_str rf "base64" = false)
  | Exc _ => False
  end.
Proof.
  intros E job s. unfold handler, try_except.
  pose proof (handler_body_shape E job s) as Hb.
  pose proof (handler_body_format E job s) as Hf.
  destruct (handler_body E job s) as [[a|e] s'].
  - destruct Hf as (rf & Hrf & H1 & H2). split; [exact Hb|].
    split; intro H; exists rf; auto.
  - cbn. split; [solve_shape | split; intro H; discriminate H].
Qed.

(** ** C5: [voice_cloned] *)

(** C5: an empty [voice_sample_base64] is not materialised ([if
    voice_sample_base64:] is false), so the model is called with
    [audio_prompt_path=None]; yet the response reports
    [voice_cloned = True], because that flag tests [is not None]. *)
Theorem tts_empty_voice_sample_reports_cloned :
  handler env_ok (job_of [("text", PStr "Hi"); ("voice_sample_base64", PStr "")]) st0 =
  (Ok (PDict [("audio_base64", PStr "UklGRg=="); ("sample_rate", PInt 24000);
              ("format", PStr "wav"); ("language_id", PNone);
              ("model_type", PStr "english"); ("mode", PStr "tts");
              ("voice_cloned", PBool true)]),
   mkState (Some 0) None None [] 0 [English]
     [GenTTS 0 (PStr "Hi") None (PNum (12 # 10)) (PNum (5 # 100)) (PNum 1)
        PNone (PNum (5 # 10)) (PNum (5 # 10)) (PNum (8 # 10))]).
Proof. reflexivity. Qed.

(** ** C7: no text *)

(** C7: a job whose input has [mode = "tts"] and an empty or absent
    [text] is answered with exactly [{"error": "No text provided"}], and
    the process state is untouched: no load, no file, no model call. *)
Theorem tts_no_text : forall E jkv kv s,
  assoc "input" jkv = Some (PDict kv) ->
  assoc "mode" kv = Some (PStr "tts") ->
  truthy (dict_get kv "text" PNone) = false ->
  handler E (PDict jkv) s = (Ok (error_resp "No text provided"), s).
Proof.
  intros E jkv kv s Hin Hmode Htext.
  unfold handler, try_except, handler_body, bind, py_getitem.
  rewrite Hin. cbn [ret py_get].
  unfold dict_get in Htext.
  rewrite Hmode. cbn [py_eq_str String.eqb Ascii.eqb Bool.eqb].
  unfold handle_tts, bind, py_get, ret. rewrite Htext. reflexivity.
Qed.

Lemma tts_no_text_witness :
  handler env_ok (job_of [("mode", PStr "tts"); ("text", PStr "")]) st0 =
  (Ok (error_resp "No text provided"), st0).
Proof.
  apply (tts_no_text env_ok [("input", PDict [("mode", PStr "tts"); ("text", PStr "")])]
           [("mode", PStr "tts"); ("text", PStr "")] st0); reflexivity.
Defined.

(** ** C8: temporary files *)

(** C8: [save_base64_to_temp_file] creates its file before writing to it
    and has no cleanup of its own; when the write fails the path never
    reaches a [finally:], and the file outlives the invocation, in both
    handlers. *)
Theorem temp_file_leaked_on_write_failure :
  handler env_disk_full (job_of [("text", PStr "Hi");
                                 ("voice_sample_base64", PStr "UklGRg==")]) st0 =
    (Ok (error_resp "Invalid voice_sample_base64: [Errno 28] No space left on device"),
     mkState (Some 0) None None ["/tmp/tmp0.wav"] 1 [English] [])
  /\ handler env_disk_full (job_of [("mode", PStr "voice_clone");
                                    ("source_audio_base64", PStr "UklGRg==");
                                    ("target_voice_base64", PStr "UklGRg==")]) st0 =
    (Ok (error_resp "[Errno 28] No space left on device"),
     mkState None None (Some 0) ["/tmp/tmp0.wav"] 1 [VoiceClone] []).
Proof. split; reflexivity. Qed.

(** ** C10: dispatch *)

(** C10: whenever [mode] is absent or anything but the string
    "voice_clone", [handler] is [handle_tts] under the boundary's
    [try/except]; no mode is rejected for being unknown. *)
Theorem non_voice_clone_mode_is_tts : forall E jkv kv s,
  assoc "input" jkv = Some (PDict kv) ->
  py_eq_str (dict_get kv "mode" (PStr "tts")) "voice_clone" = false ->
  handler E (PDict jkv) s =
  try_except (handle_tts E (PDict kv)) (fun e => ret (error_resp (exn_str e))) s.
Proof.
  intros E jkv kv s Hin Hmode.
  unfold handler, try_except, handler_body, bind, py_getitem.
  rewrite Hin. cbn [ret py_get].
  unfold dict_get in Hmode. rewrite Hmode. reflexivity.
Qed.

Lemma non_voice_clone_mode_is_tts_witness :
  handler env_ok (job_of [("mode", PStr "xyz"); ("text", PStr "Hi")]) st0 =
  (Ok (PDict [("audio_base64", PStr "UklGRg=="); ("sample_rate", PInt 24000);
              ("format", PStr "wav"); ("language_id", PNone);
              ("model_type", PStr "english"); ("mode", PStr "tts");
              ("voice_cloned", PBool false)]),
   mkState (Some 0) None None [] 0 [English]
     [GenTTS 0 (PStr "Hi") None (PNum (12 # 10)) (PNum (5 # 100)) (PNum 1)
        PNone (PNum (5 # 10)) (PNum (5 # 10)) (PNum (8 # 10))]).
Proof.
  etransitivity.
  - exact (non_voice_clone_mode_is_tts env_ok
             [("input", PDict [("mode", PStr "xyz"); ("text", PStr "Hi")])]
             [("mode", PStr "xyz"); ("text", PStr "Hi")] st0 eq_refl eq_refl).
  - reflexivity.
Defined.

(** ** Simulation up to a map on the returned value *)

Lemma sim_bind_same {A B} (f : B -> B) (m : M A) k1 k2 :
  (forall a, sim f (k1 a) (k2 a)) -> sim f (bind m k1) (bind m k2).
Proof.
  intros H s. unfold mapM, bind.
  destruct (m s) as [[a|e] s']; [apply H | reflexivity].
Qed.

Lemma sim_bind_ret {A B} (f : B -> B) (a1 a2 : A) k1 k2 :
  sim f (k1 a1) (k2 a2) -> sim f (bind (ret a1) k1) (bind (ret a2) k2).
Proof. intros H s. apply H. Qed.

Lemma sim_ret {A} (f : A -> A) a b : b = f a -> sim f (ret b) (ret a).
Proof. intros -> s. reflexivity. Qed.

Lemma sim_raise {A} (f : A -> A) e : sim f (raise e) (raise e).
Proof. intros s. reflexivity. Qed.

Lemma sim_try_finally {A} (f : A -> A) m1 m2 g :
  sim f m1 m2 -> sim f (try_finally m1 g) (try_finally m2 g).
Proof.
  intros H s. unfold try_finally, mapM. rewrite H. unfold mapM.
  destruct (m2 s) as [r s']. destruct (g s') as [[u|e] s'']; reflexivity.
Qed.

Lemma sim_try_except {A} (f : A -> A) m1 m2 h :
  sim f m1 m2 -> (forall e, sim f (h e) (h e)) ->
  sim f (try_except m1 h) (try_except m2 h).
Proof.
  intros H Hh s. unfold try_except. rewrite H. unfold mapM.
  destruct (m2 s) as [[a|e] s']; [reflexivity | apply Hh].
Qed.

Lemma tts_encode_url E model model_type text language_id vsb app rp minp topp ex cfg temp :
  sim url_of
    (tts_generate_and_encode E model model_type text language_id vsb app rp minp topp
       ex cfg temp (PStr "url"))
    (tts_generate_and_encode E model model_type text language_id vsb app rp minp topp
       ex cfg temp (PStr "base64")).
Proof.
  intros s. unfold tts_generate_and_encode, generate_call, bind, lift, modify, ret, mapM.
  destruct (String.eqb model_type "multilingual" && truthy language_id);
    (destruct (generate E _) as [w|e]; [|reflexivity]);
    destruct (ta_save E w _); reflexivity.
Qed.

Lemma vc_encode_url E model model_type sp tp :
  sim url_of (vc_generate_and_encode E model model_type sp tp (PStr "url"))
             (vc_generate_and_encode E model model_type sp tp (PStr "base64")).
Proof.
  intros s. unfold vc_generate_and_encode, generate_call, bind, lift, modify, ret, mapM.
  (destruct (generate E _) as [w|e]; [|reflexivity]).
  destruct (ta_save E w _); reflexivity.
Qed.

Ltac sim_step :=
  match goal with
  | |- sim _ (bind ?m _) (bind ?m _) => apply sim_bind_same; intro
  | |- sim _ (bind (ret _) _) (bind (ret _) _) => apply sim_bind_ret; cbn beta
  | |- sim _ (ret _) (ret _) => apply sim_ret; reflexivity
  | |- sim _ (raise _) (raise _) => apply sim_raise
  | |- sim _ (try_finally _ ?g) (try_finally _ ?g) => apply sim_try_finally
  | |- sim _ (tts_generate_and_encode _ _ _ _ _ _ _ _ _ _ _ _ _ _) _ => apply tts_encode_url
  | |- sim _ (vc_generate_and_encode _ _ _ _ _ _) _ => apply vc_encode_url
  | |- sim _ (if ?b then _ else _) (if ?b then _ else _) => destruct b
  | |- sim _ (match ?x with _ => _ end) (match ?x with _ => _ end) => destruct x
  end.

Lemma handler_url_sim E kv :
  sim url_of (handler E (job_of (("return_format", PStr "url") :: kv)))
             (handler E (job_of (("return_format", PStr "base64") :: kv))).
Proof.
  unfold handler. apply sim_try_except; [| intros e; apply sim_ret; reflexivity].
  unfold handler_body, job_of.
  cbn [py_getitem assoc String.eqb Ascii.eqb Bool.eqb].
  apply sim_bind_ret; cbn beta.
  cbn [py_get assoc String.eqb Ascii.eqb Bool.eqb].
  apply sim_bind_same; intro mode.
  destruct (py_eq_str mode "voice_clone").
  - unfold handle_voice_clone. cbn [py_get assoc String.eqb Ascii.eqb Bool.eqb].
    repeat sim_step.
  - unfold handle_tts. cbn [py_get assoc String.eqb Ascii.eqb Bool.eqb].
    repeat sim_step.
Qed.

Lemma assoc_filter_format k rest :
  k <> "format" ->
  assoc k (filter (fun kv => negb (String.eqb (fst kv) "format")) rest) = assoc k rest.
Proof.
  intros Hk. induction rest as [|[k' v] rest IH]; [reflexivity|].
  cbn. destruct (String.eqb k' "format") eqn:Hf.
  - apply String.eqb_eq in Hf. subst k'. cbn.
    destruct (String.eqb k "format") eqn:Hkf; [apply String.eqb_eq in Hkf; contradiction|].
    exact IH.
  - cbn. rewrite IH. reflexivity.
Qed.

(** ** C9: [return_format = "url"] *)

(** C9: a request with [return_format = "url"] runs exactly as the same
    request with "base64" up to the response, which is rewritten by
    [url_of].  So when the request reaches the encoder (the base64 run
    answers with audio), the url run answers with no [error], the "URL
    format not implemented" message, and every other key of the base64
    response except [audio_base64] and [format]: [sample_rate],
    [model_type], [mode] and, for TTS, [language_id] and [voice_cloned]. *)
Theorem url_format_response : forall E kv s,
  let job_url := job_of (("return_format", PStr "url") :: kv) in
  let job_b64 := job_of (("return_format", PStr "base64") :: kv) in
  handler E job_url s = mapM url_of (handler E job_b64) s /\
  (forall a rest,
     fst (handler E job_b64 s) = Ok (PDict (("audio_base64", PStr a) :: rest)) ->
     exists R, fst (handler E job_url s) = Ok R /\
       resp_get "message" R = Some (PStr url_message) /\
       resp_get "error" R = None /\
       (forall k, k <> "audio_base64" -> k <> "format" -> k <> "message" ->
          resp_get k R = assoc k rest)).
Proof.
  intros E kv s job_url job_b64.
  assert (Hsim : handler E job_url s = mapM url_of (handler E job_b64) s)
    by apply handler_url_sim.
  split; [exact Hsim|].
  intros a rest Hb.
  assert (Herr : assoc "error" rest = None).
  { pose proof (handler_body_shape E job_b64 s) as Hs.
    unfold handler, try_except in Hb.
    destruct (handler_body E job_b64 s) as [[d|e] s1].
    - cbn in Hb. injection Hb as ->.
      destruct Hs as [[msg Hm] | [[a' [rest' [Hr [He _]]]] | [rest' [Hr _]]]].
      + discriminate Hm.
      + injection Hr as _ ->. exact He.
      + discriminate Hr.
    - cbn in Hb. discriminate Hb. }
  rewrite Hsim. unfold mapM.
  destruct (handler E job_b64 s) as [r s1]. cbn in Hb. subst r.
  eexists. split; [reflexivity|].
  split; [reflexivity|].
  split.
  - cbn. rewrite assoc_filter_format by discriminate. exact Herr.
  - intros k H1 H2 H3. cbn.
    destruct (String.eqb k "message") eqn:Hm; [apply String.eqb_eq in Hm; contradiction|].
    apply assoc_filter_format. exact H2.
Qed.

Lemma url_format_response_witness :
  fst (handler env_ok (job_of [("return_format", PStr "base64"); ("text", PStr "Hi")]) st0) =
    Ok (PDict [("audio_base64", PStr "UklGRg=="); ("sample_rate", PInt 24000);
               ("format", PStr "wav"); ("language_id", PNone);
               ("model_type", PStr "english"); ("mode", PStr "tts");
               ("voice_cloned", PBool false)])
  /\ exists R, fst (handler env_ok (job_of [("return_format", PStr "url"); ("text", PStr "Hi")]) st0) = Ok R
       /\ resp_get "message" R = Some (PStr url_message).
Proof.
  split; [reflexivity|].
  destruct (proj2 (url_format_response env_ok [("text", PStr "Hi")] st0) "UklGRg=="
              [("sample_rate", PInt 24000); ("format", PStr "wav"); ("language_id", PNone);
               ("model_type", PStr "english"); ("mode", PStr "tts");
               ("voice_cloned", PBool false)] eq_refl) as [R [HR [Hm _]]].
  exists R. split; [exact HR | exact Hm].
Defined.

(** ** Frame lemmas: what does not touch the model *)

Lemma bind_ok_inv {A B} (m : M A) (k : A -> M B) s b s2 :
  bind m k s = (Ok b, s2) -> exists a s1, m s = (Ok a, s1) /\ k a s1 = (Ok b, s2).
Proof.
  unfold bind. destruct (m s) as [[a|e] s1]; intro H; [eauto | discriminate H].
Qed.

Lemma try_finally_ok_inv {A} (m : M A) g s b s2 :
  try_finally m g s = (Ok b, s2) -> exists s1 u, m s = (Ok b, s1) /\ g s1 = (Ok u, s2).
Proof.
  unfold try_finally. destruct (m s) as [r s1] eqn:E1.
  destruct (g s1) as [[u|e] s'] eqn:E2; intro H; [|discriminate H].
  injection H as -> ->. exists s1, u. split; auto.
Qed.

Lemma frame_ret {A} (a : A) : frame (ret a).
Proof. intros s r s' H. injection H as _ <-. auto. Qed.

Lemma frame_raise {A} e : frame (A := A) (raise e).
Proof. intros s r s' H. injection H as _ <-. auto. Qed.

Lemma frame_gets {A} (f : state -> A) : frame (gets f).
Proof. intros s r s' H. injection H as _ <-. auto. Qed.

Lemma frame_lift {A} (x : result A) : frame (lift x).
Proof. intros s r s' H. injection H as _ <-. auto. Qed.

Lemma frame_modify f :
  (forall s, calls (f s) = calls s /\ loads (f s) = loads s) -> frame (modify f).
Proof. intros Hf s r s' H. injection H as _ <-. apply Hf. Qed.

Lemma frame_bind {A B} (m : M A) (k : A -> M B) :
  frame m -> (forall a, frame (k a)) -> frame (bind m k).
Proof.
  intros Hm Hk s r s2. unfold bind.
  destruct (m s) as [[a|e] s1] eqn:E1; intro H.
  - destruct (Hm _ _ _ E1) as [C1 L1]. destruct (Hk a _ _ _ H) as [C2 L2].
    split; congruence.
  - injection H as _ <-. exact (Hm _ _ _ E1).
Qed.

Lemma frame_try_except {A} (m : M A) h :
  frame m -> (forall e, frame (h e)) -> frame (try_except m h).
Proof.
  intros Hm Hh s r s2. unfold try_except.
  destruct (m s) as [[a|e] s1] eqn:E1; intro H.
  - injection H as _ <-. exact (Hm _ _ _ E1).
  - destruct (Hm _ _ _ E1) as [C1 L1]. destruct (Hh e _ _ _ H) as [C2 L2].
    split; congruence.
Qed.

Lemma frame_catch {A} (m : M A) : frame m -> frame (catch m).
Proof.
  intros Hm s r s2. unfold catch.
  destruct (m s) as [r' s1] eqn:E1; intro H. injection H as _ <-. exact (Hm _ _ _ E1).
Qed.

Ltac frame_step :=
  match goal with
  | |- frame (bind _ _) => apply frame_bind; [|intro]
  | |- frame (ret _) => apply frame_ret
  | |- frame (raise _) => apply frame_raise
  | |- frame (gets _) => apply frame_gets
  | |- frame (lift _) => apply frame_lift
  | |- frame (modify _) => apply frame_modify; intro; split; reflexivity
  | |- frame (try_except _ _) => apply frame_try_except; [|intro]
  | |- frame (catch _) => apply frame_catch
  | |- frame (if ?b then _ else _) => destruct b
  | |- frame (match ?x with _ => _ end) => destruct x
  end.

Lemma frame_save E v : frame (save_base64_to_temp_file E v).
Proof. unfold save_base64_to_temp_file. repeat frame_step. Qed.

Lemma frame_remove_temp E p : frame (remove_temp E p).
Proof. unfold remove_temp, path_exists, os_unlink. repeat frame_step. Qed.

Lemma get_model_tts E language_id s h mt s1 :
  get_model E language_id "tts" s = (Ok (h, mt), s1) ->
  mt = (if is_none language_id || py_eq_str language_id "en"
        then "english" else "multilingual") /\
  calls s1 = calls s.
Proof.
  unfold get_model. cbn [String.eqb Ascii.eqb Bool.eqb].
  destruct (is_none language_id || py_eq_str language_id "en");
    unfold load_slot, bind, gets, modify, lift, ret; cbn [slot_of];
    [destruct (m_english s) | destruct (m_multilingual s)];
    try (intro H; injection H as _ <- <-; split; reflexivity);
    (destruct (from_pretrained E _ _); intro H; [|discriminate H]);
    injection H as _ <- <-; split; reflexivity.
Qed.

Lemma tts_generate_calls E model mt text language_id vsb app rp minp topp ex cfg temp rf s r s1 :
  tts_generate_and_encode E model mt text language_id vsb app rp minp topp ex cfg temp rf s
    = (Ok r, s1) ->
  resp_get "model_type" r = Some (PStr mt) /\
  calls s1 = (calls s ++ [GenTTS model text
                            (if String.eqb mt "multilingual" && truthy language_id
                             then Some language_id else None)
                            rp minp topp app ex cfg temp])%list.
Proof.
  unfold tts_generate_and_encode, generate_call, bind, lift, modify, ret.
  destruct (String.eqb mt "multilingual" && truthy language_id);
    (destruct (generate E _) as [w|e]; [|intro H; discriminate H]);
    (destruct (ta_save E w _) as [b|e]; [|intro H; discriminate H]);
    destruct (py_eq_str rf "base64"); intro H; injection H as <- <-;
    split; reflexivity.
Qed.

Lemma frame_tts_voice_sample E vsb :
  frame (if truthy vsb then
           catch (p <- save_base64_to_temp_file E vsb ;; ret (Some p))
         else ret (Ok None)).
Proof.
  destruct (truthy vsb); [|apply frame_ret].
  apply frame_catch, frame_bind; [apply frame_save | intro; apply frame_ret].
Qed.

Lemma py_get_dict kv k d s a s1 :
  py_get (PDict kv) k d s = (Ok a, s1) -> a = dict_get kv k d /\ s1 = s.
Proof. cbn. intro H. injection H as <- <-. split; reflexivity. Qed.

Lemma tts_call_language (lang : pyval) :
  (String.eqb (if is_none lang || py_eq_str lang "en" then "english" else "multilingual")
     "multilingual" && truthy lang)
  = (truthy lang && negb (py_eq_str lang "en")).
Proof.
  destruct lang as [| b | z | q | str | l | kv];
    cbn [is_none py_eq_str truthy orb String.eqb Ascii.eqb Bool.eqb];
    rewrite ?andb_true_r; try reflexivity.
  destruct (String.eqb str "en"), (String.eqb str ""); reflexivity.
Qed.

(** ** C6: language routing *)

(** C6 (counterexample): [language_id = ""] is present and not "en", so
    [get_model] selects the multilingual model, but [""] is falsy, so the
    model is called without [language_id]. *)
Lemma language_routing_counterexample :
  handler env_ok (job_of [("text", PStr "Hi"); ("language_id", PStr "")]) st0 =
  (Ok (PDict [("audio_base64", PStr "UklGRg=="); ("sample_rate", PInt 24000);
              ("format", PStr "wav"); ("language_id", PStr "");
              ("model_type", PStr "multilingual"); ("mode", PStr "tts");
              ("voice_cloned", PBool false)]),
   mkState None (Some 0) None [] 0 [Multilingual]
     [GenTTS 0 (PStr "Hi") None (PNum (12 # 10)) (PNum (5 # 100)) (PNum 1)
        PNone (PNum (5 # 10)) (PNum (5 # 10)) (PNum (8 # 10))]).
Proof. reflexivity. Qed.

(** C6 (amended): for a TTS request with non-empty [text] that gets as far
    as a response with a [model_type], that [model_type] is "english" when
    [language_id] is absent, null or "en" and "multilingual" otherwise; the
    request made exactly one model call, and that call carries
    [language_id] exactly when [language_id] is truthy and not "en" (a
    falsy value such as "" selects the multilingual model without being
    passed to it). *)
Theorem tts_language_routing : forall E kv s r s',
  truthy (dict_get kv "text" PNone) = true ->
  handle_tts E (PDict kv) s = (Ok r, s') ->
  resp_get "model_type" r <> None ->
  let lang := dict_get kv "language_id" PNone in
  resp_get "model_type" r =
    Some (PStr (if is_none lang || py_eq_str lang "en" then "english" else "multilingual"))
  /\ exists c, calls s' = (calls s ++ [c])%list /\
       call_language_id c =
         Some (if truthy lang && negb (py_eq_str lang "en") then Some lang else None).
Proof.
  intros E kv s r s' Ht H Hmt lang.
  unfold handle_tts in H.
  apply bind_ok_inv in H as (text & s1 & H1 & H).
  apply py_get_dict in H1 as [-> ->]. rewrite Ht in H. cbn [negb] in H.
  apply bind_ok_inv in H as (lang0 & s2 & H2 & H).
  apply py_get_dict in H2 as [-> ->].
  apply bind_ok_inv in H as (vsb & s3 & H3 & H).
  apply py_get_dict in H3 as [-> ->].
  apply bind_ok_inv in H as ([model mt] & s4 & H4 & H).
  apply get_model_tts in H4 as [Hmt4 Hc4].
  apply bind_ok_inv in H as (app & s5 & H5 & H).
  apply py_get_dict in H5 as [-> ->].
  apply bind_ok_inv in H as (saved & s6 & H6 & H).
  destruct (frame_tts_voice_sample E _ _ _ _ H6) as [Hc6 _].
  destruct saved as [vtp | e].
  2: { cbn in H. injection H as <- _. contradiction Hmt. reflexivity. }
  do 7 (apply bind_ok_inv in H as (? & ? & ?Hg & H);
        apply py_get_dict in Hg as [-> ->]).
  apply try_finally_ok_inv in H as (s7 & u & H7 & H8).
  apply tts_generate_calls in H7 as [Hr Hc7].
  destruct (frame_remove_temp E _ _ _ _ H8) as [Hc8 _].
  split.
  - rewrite Hr, Hmt4. reflexivity.
  - eexists. split.
    + rewrite Hc8, Hc7, Hc6, Hc4. reflexivity.
    + cbn [call_language_id]. rewrite Hmt4. fold lang.
      unfold lang. rewrite tts_call_language. reflexivity.
Qed.

Lemma tts_language_routing_witness :
  handle_tts env_ok (PDict [("text", PStr "Bonjour"); ("language_id", PStr "fr")]) st0 =
    (Ok (PDict [("audio_base64", PStr "UklGRg=="); ("sample_rate", PInt 24000);
                ("format", PStr "wav"); ("language_id", PStr "fr");
                ("model_type", PStr "multilingual"); ("mode", PStr "tts");
                ("voice_cloned", PBool false)]),
     mkState None (Some 0) None [] 0 [Multilingual]
       [GenTTS 0 (PStr "Bonjour") (Some (PStr "fr")) (PNum (12 # 10)) (PNum (5 # 100))
          (PNum 1) PNone (PNum (5 # 10)) (PNum (5 # 10)) (PNum (8 # 10))])
  /\ resp_get "model_type"
       (PDict [("audio_base64", PStr "UklGRg=="); ("sample_rate", PInt 24000);
               ("format", PStr "wav"); ("language_id", PStr "fr");
               ("model_type", PStr "multilingual"); ("mode", PStr "tts");
               ("voice_cloned", PBool false)]) = Some (PStr "multilingual").
Proof.
  split; [reflexivity|].
  exact (proj1 (tts_language_routing env_ok
                  [("text", PStr "Bonjour"); ("language_id", PStr "fr")] st0 _ _
                  eq_refl eq_refl ltac:(discriminate))).
Defined.

(** * Further properties *)

(** ** Base64 round trip *)

Lemma forallb_seq f k n : forallb f (seq 0 k) = true -> n < k -> f n = true.
Proof.
  intros H Hn. rewrite forallb_forall in H. apply H, in_seq. lia.
Qed.

Lemma byte_range_nat z : byte_range z -> z = Z.of_nat (Z.to_nat z) /\ Z.to_nat z < 256.
Proof. unfold byte_range. intros H. split; lia. Qed.

Lemma b64_char_land z : b64_char z = b64_char (Z.land z 63).
Proof. unfold b64_char. rewrite <- Z.land_assoc. reflexivity. Qed.

Lemma b64_char_facts z :
  b64_value (b64_char z) = Some (Z.land z 63) /\ Ascii.eqb (b64_char z) "=" = false /\
  nat_of_ascii (b64_char z) < 128.
Proof.
  assert (Hc : forallb b64_char_ok (seq 0 64) = true) by (vm_compute; reflexivity).
  assert (Hb : (0 <= Z.land z 63 < 64)%Z).
  { change 63%Z with (Z.ones 6). rewrite Z.land_ones by lia.
    apply Z.mod_pos_bound. reflexivity. }
  pose proof (forallb_seq _ _ (Z.to_nat (Z.land z 63)) Hc ltac:(lia)) as H.
  unfold b64_char_ok in H. rewrite Z2Nat.id in H by lia.
  rewrite (b64_char_land z).
  destruct (b64_value (b64_char (Z.land z 63))) as [v|]; [|discriminate H].
  apply andb_prop in H as [H H3]. apply andb_prop in H as [H1 H2].
  apply Z.eqb_eq in H1. apply negb_true_iff in H2. apply Nat.ltb_lt in H3.
  subst v. auto.
Qed.

Lemma a2b_quad x1 x2 x3 x4 rest lc acc :
  a2b_loop (b64_char x1 :: b64_char x2 :: b64_char x3 :: b64_char x4 :: rest) 0 lc 0 acc
  = a2b_loop rest 0 0 0
      (Z.land (Z.lor (Z.shiftl (Z.land (Z.land x3 63) 3) 6) (Z.land x4 63)) 255
       :: Z.land (Z.lor (Z.shiftl (Z.land (Z.land x2 63) 15) 4) (Z.shiftr (Z.land x3 63) 2)) 255
       :: Z.land (Z.lor (Z.shiftl (Z.land x1 63) 2) (Z.shiftr (Z.land x2 63) 4)) 255
       :: acc).
Proof.
  destruct (b64_char_facts x1) as (V1 & E1 & _).
  destruct (b64_char_facts x2) as (V2 & E2 & _).
  destruct (b64_char_facts x3) as (V3 & E3 & _).
  destruct (b64_char_facts x4) as (V4 & E4 & _).
  cbn [a2b_loop]. rewrite E1, V1, E2, V2, E3, V3, E4, V4. reflexivity.
Qed.

Lemma pair_facts a b :
  byte_range a -> byte_range b ->
  Z.land (Z.lor (Z.shiftl (Z.land (Z.shiftr a 2) 63) 2) (Z.shiftr (Z.land (b64_q2 a b) 63) 4)) 255 = a
  /\ Z.land (Z.land (b64_q2 a b) 63) 15 = Z.shiftr b 4.
Proof.
  intros Ha Hb.
  destruct (byte_range_nat a Ha) as [Ea Ha'], (byte_range_nat b Hb) as [Eb Hb'].
  rewrite Ea, Eb.
  assert (Hc : forallb (fun i => forallb (out1_ok i) (seq 0 256)) (seq 0 256) = true)
    by (vm_compute; reflexivity).
  pose proof (forallb_seq _ _ _ (forallb_seq _ _ _ Hc Ha') Hb') as H.
  unfold out1_ok in H. apply andb_prop in H as [H1 H2].
  split; apply Z.eqb_eq; assumption.
Qed.

Lemma pair23_facts b c :
  byte_range b -> byte_range c ->
  Z.land (Z.lor (Z.shiftl (Z.shiftr b 4) 4) (Z.shiftr (Z.land (b64_q3 b c) 63) 2)) 255 = b
  /\ Z.land (Z.lor (Z.shiftl (Z.land (Z.land (b64_q3 b c) 63) 3) 6) (Z.land c 63)) 255 = c.
Proof.
  intros Hb Hc.
  destruct (byte_range_nat b Hb) as [Eb Hb'], (byte_range_nat c Hc) as [Ec Hc'].
  rewrite Eb, Ec.
  assert (Hk : forallb (fun i => forallb (out23_ok i) (seq 0 256)) (seq 0 256) = true)
    by (vm_compute; reflexivity).
  pose proof (forallb_seq _ _ _ (forallb_seq _ _ _ Hk Hb') Hc') as H.
  unfold out23_ok in H. apply andb_prop in H as [H1 H2].
  split; apply Z.eqb_eq; assumption.
Qed.

Lemma tail_facts a :
  byte_range a ->
  Z.land (Z.lor (Z.shiftl (Z.land (Z.shiftr a 2) 63) 2)
                (Z.shiftr (Z.land (Z.shiftl (Z.land a 3) 4) 63) 4)) 255 = a
  /\ Z.land (Z.lor (Z.shiftl (Z.shiftr a 4) 4)
                   (Z.shiftr (Z.land (Z.shiftl (Z.land a 15) 2) 63) 2)) 255 = a.
Proof.
  intros Ha. destruct (byte_range_nat a Ha) as [Ea Ha']. rewrite Ea.
  assert (Hk : forallb tail_ok (seq 0 256) = true) by (vm_compute; reflexivity).
  pose proof (forallb_seq _ _ _ Hk Ha') as H.
  unfold tail_ok in H. apply andb_prop in H as [H1 H2].
  split; apply Z.eqb_eq; assumption.
Qed.

Lemma a2b_loop_encode n : forall l acc,
  length l <= n -> Forall byte_range l ->
  exists qp done, a2b_loop (b64encode_list l) 0 0 0 acc = ((rev acc ++ l)%list, qp, done)
                  /\ (done = true \/ qp = 0).
Proof.
  induction n as [|n IH]; intros l acc Hlen Hr.
  - destruct l; [|cbn in Hlen; lia].
    exists 0, false. rewrite app_nil_r. auto.
  - destruct l as [|a [|b [|c rest]]].
    + exists 0, false. rewrite app_nil_r. auto.
    + apply Forall_cons_iff in Hr as [Ha _].
      destruct (b64_char_facts (Z.shiftr a 2)) as (V1 & E1 & _).
      destruct (b64_char_facts (Z.shiftl (Z.land a 3) 4)) as (V2 & E2 & _).
      cbn [b64encode_list a2b_loop]. rewrite E1, V1, E2, V2.
      cbn -[Z.land Z.lor Z.shiftl Z.shiftr]. rewrite (proj1 (tail_facts a Ha)). exists 2, true. auto.
    + apply Forall_cons_iff in Hr as [Ha Hr]. apply Forall_cons_iff in Hr as [Hb _].
      destruct (b64_char_facts (Z.shiftr a 2)) as (V1 & E1 & _).
      destruct (b64_char_facts (b64_q2 a b)) as (V2 & E2 & _).
      destruct (b64_char_facts (Z.shiftl (Z.land b 15) 2)) as (V3 & E3 & _).
      unfold b64_q2 in V2, E2.
      cbn [b64encode_list a2b_loop]. rewrite E1, V1, E2, V2, E3, V3.
      cbn -[Z.land Z.lor Z.shiftl Z.shiftr].
      fold (b64_q2 a b). rewrite (proj1 (pair_facts a b Ha Hb)), (proj2 (pair_facts a b Ha Hb)).
      rewrite (proj2 (tail_facts b Hb)).
      exists 3, true. rewrite <- app_assoc. auto.
    + apply Forall_cons_iff in Hr as [Ha Hr]. apply Forall_cons_iff in Hr as [Hb Hr].
      apply Forall_cons_iff in Hr as [Hc Hr3].
      cbn [b64encode_list]. rewrite a2b_quad.
      fold (b64_q2 a b) (b64_q3 b c).
      destruct (pair_facts a b Ha Hb) as [P1 P2]. destruct (pair23_facts b c Hb Hc) as [P3 P4].
      rewrite P1, P2, P3, P4.
      destruct (IH rest (c :: b :: a :: acc)) as (qp & d & H & Hd); [cbn in Hlen; lia | exact Hr3 |].
      exists qp, d. rewrite H. cbn. rewrite <- !app_assoc. auto.
Qed.

Lemma b64encode_list_ascii n : forall l, length l <= n ->
  forallb (fun c => Nat.ltb (nat_of_ascii c) 128) (b64encode_list l) = true.
Proof.
  induction n as [|n IH]; intros l Hlen.
  - destruct l; [reflexivity | cbn in Hlen; lia].
  - assert (Hc : forall z, Nat.ltb (nat_of_ascii (b64_char z)) 128 = true)
      by (intro z; apply Nat.ltb_lt, b64_char_facts).
    destruct l as [|a [|b [|c rest]]]; cbn [b64encode_list forallb]; rewrite ?Hc;
      try reflexivity.
    apply IH. cbn in Hlen. lia.
Qed.

Lemma byte_of_Z_to_N b : byte_of_Z (Z.of_N (Byte.to_N b)) = b.
Proof. destruct b; reflexivity. Qed.

Lemma byte_to_Z_range b : byte_range (Z.of_N (Byte.to_N b)).
Proof. pose proof (Byte.to_N_bounded b). unfold byte_range. lia. Qed.

Lemma b64_roundtrip bs : b64decode (PStr (b64encode bs)) = Ok bs.
Proof.
  set (l := map (fun b => Z.of_N (Byte.to_N b)) bs).
  unfold b64decode, b64encode. fold l.
  rewrite list_ascii_of_string_of_list_ascii.
  rewrite (b64encode_list_ascii (length l) l (le_n _)).
  unfold a2b_base64.
  destruct (a2b_loop_encode (length l) l [] (le_n _)) as (qp & d & H & Hd).
  { apply Forall_forall. intros z Hz. unfold l in Hz. apply in_map_iff in Hz as (b & <- & _).
    apply byte_to_Z_range. }
  rewrite H. cbn [rev app].
  assert (Hm : map byte_of_Z l = bs).
  { unfold l. rewrite map_map. rewrite (map_ext _ (fun b => b)) by apply byte_of_Z_to_N.
    apply map_id. }
  destruct Hd as [-> | ->]; [destruct qp as [|[|]] | destruct d]; rewrite Hm; reflexivity.
Qed.

(** ** Effects on the model cache and the logs *)

Lemma steps_refl s : steps 0 0 s s.
Proof.
  split; [auto|]. split; exists []; rewrite app_nil_r; cbn; intuition.
Qed.

Lemma steps_mono a b a' b' s s' : a <= a' -> b <= b' -> steps a b s s' -> steps a' b' s s'.
Proof.
  intros Ha Hb (H1 & (lv & L1 & L2 & L3) & (lc & C1 & C2)).
  split; [exact H1|]. split; [exists lv | exists lc]; repeat split; auto; lia.
Qed.

Lemma steps_trans a b c d s1 s2 s3 :
  steps a b s1 s2 -> steps c d s2 s3 -> steps (a + c) (b + d) s1 s3.
Proof.
  intros (H1 & (lv & L1 & L2 & L3) & (lc & C1 & C2))
         (H1' & (lv' & L1' & L2' & L3') & (lc' & C1' & C2')).
  split; [auto|]. split.
  - exists (lv ++ lv')%list. rewrite L1', L1, app_assoc, length_app.
    split; [reflexivity | split; [lia|]].
    intros v Hv. apply in_app_or in Hv as [Hv | Hv]; [auto|].
    specialize (L3' v Hv). destruct (slot_of v s1) as [h|] eqn:Hs; [|reflexivity].
    rewrite (H1 v h Hs) in L3'. discriminate L3'.
  - exists (lc ++ lc')%list. rewrite C1', C1, app_assoc, length_app. split; [reflexivity | lia].
Qed.

(** [f] keeps the cache, the load log and the call log. *)
Lemma steps_same s s' :
  m_english s' = m_english s -> m_multilingual s' = m_multilingual s ->
  m_voice_clone s' = m_voice_clone s -> loads s' = loads s -> calls s' = calls s ->
  steps 0 0 s s'.
Proof.
  intros E1 E2 E3 L C. split; [|split].
  - intros [] h; cbn; congruence.
  - exists []. rewrite app_nil_r. cbn. intuition.
  - exists []. rewrite app_nil_r. cbn. intuition.
Qed.

Lemma effect_mono {A} (m : M A) a b a' b' :
  a <= a' -> b <= b' -> effect m a b -> effect m a' b'.
Proof. intros Ha Hb Hm s r s' H. eapply steps_mono; eauto. Qed.

Lemma effect_ret {A} (x : A) : effect (ret x) 0 0.
Proof. intros s r s' H. injection H as _ <-. apply steps_refl. Qed.

Lemma effect_raise {A} e : effect (A := A) (raise e) 0 0.
Proof. intros s r s' H. injection H as _ <-. apply steps_refl. Qed.

Lemma effect_gets {A} (f : state -> A) : effect (gets f) 0 0.
Proof. intros s r s' H. injection H as _ <-. apply steps_refl. Qed.

Lemma effect_lift {A} (x : result A) : effect (lift x) 0 0.
Proof. intros s r s' H. injection H as _ <-. apply steps_refl. Qed.

Lemma effect_modify f : (forall s, steps 0 0 s (f s)) -> effect (modify f) 0 0.
Proof. intros Hf s r s' H. injection H as _ <-. apply Hf. Qed.

Lemma effect_bind {A B} (m : M A) (k : A -> M B) a b c d :
  effect m a b -> (forall x, effect (k x) c d) -> effect (bind m k) (a + c) (b + d).
Proof.
  intros Hm Hk s r s2. unfold bind.
  destruct (m s) as [[x|e] s1] eqn:E1; intro H.
  - exact (steps_trans _ _ _ _ _ _ _ (Hm _ _ _ E1) (Hk x _ _ _ H)).
  - injection H as _ <-. eapply steps_mono; [| | exact (Hm _ _ _ E1)]; lia.
Qed.

Lemma effect_bind_r {A B} (m : M A) (k : A -> M B) a b :
  effect m a b -> (forall x, effect (k x) 0 0) -> effect (bind m k) a b.
Proof.
  intros Hm Hk. eapply effect_mono; [| | exact (effect_bind m k a b 0 0 Hm Hk)]; lia.
Qed.

Lemma effect_try_except {A} (m : M A) h a b :
  effect m a b -> (forall e, effect (h e) 0 0) -> effect (try_except m h) a b.
Proof.
  intros Hm Hh s r s2. unfold try_except.
  destruct (m s) as [[x|e] s1] eqn:E1; intro H.
  - injection H as _ <-. exact (Hm _ _ _ E1).
  - eapply steps_mono; [| | exact (steps_trans _ _ _ _ _ _ _ (Hm _ _ _ E1) (Hh e _ _ _ H))]; lia.
Qed.

Lemma effect_catch {A} (m : M A) a b : effect m a b -> effect (catch m) a b.
Proof.
  intros Hm s r s2. unfold catch.
  destruct (m s) as [r' s1] eqn:E1; intro H. injection H as _ <-. exact (Hm _ _ _ E1).
Qed.

Lemma effect_try_finally {A} (m : M A) g a b :
  effect m a b -> effect g 0 0 -> effect (try_finally m g) a b.
Proof.
  intros Hm Hg s r s2. unfold try_finally.
  destruct (m s) as [r' s1] eqn:E1. destruct (g s1) as [[u|e] s'] eqn:E2; intro H;
  injection H as _ <-;
  (eapply steps_mono; [| | exact (steps_trans _ _ _ _ _ _ _ (Hm _ _ _ E1) (Hg _ _ _ E2))]; lia).
Qed.

Ltac eff_zero :=
  match goal with
  | |- effect (bind _ _) 0 0 => apply (effect_bind _ _ 0 0 0 0); [|intro]
  | |- effect (ret _) _ _ => apply effect_ret
  | |- effect (raise _) _ _ => apply effect_raise
  | |- effect (gets _) _ _ => apply effect_gets
  | |- effect (lift _) _ _ => apply effect_lift
  | |- effect (modify _) _ _ => apply effect_modify; intro; apply steps_same; reflexivity
  | |- effect (try_except _ _) _ _ => apply effect_try_except; [|intro]
  | |- effect (try_finally _ _) _ _ => apply effect_try_finally
  | |- effect (catch _) _ _ => apply effect_catch
  | |- effect (if ?b then _ else _) _ _ => destruct b
  | |- effect (match ?x with _ => _ end) _ _ => destruct x
  end.

Lemma effect_py_get d k dflt : effect (py_get d k dflt) 0 0.
Proof. unfold py_get. repeat eff_zero. Qed.

Lemma effect_py_getitem d k : effect (py_getitem d k) 0 0.
Proof. unfold py_getitem. repeat eff_zero. Qed.

Lemma effect_save E v : effect (save_base64_to_temp_file E v) 0 0.
Proof. unfold save_base64_to_temp_file. repeat eff_zero. Qed.

Lemma effect_remove_temp E p : effect (remove_temp E p) 0 0.
Proof. unfold remove_temp, path_exists, os_unlink. repeat eff_zero. Qed.

Lemma effect_cleanup_paths E ps : effect (cleanup_paths E ps) 0 0.
Proof.
  induction ps as [|p ps IH]; cbn [cleanup_paths]; [apply effect_ret|].
  apply (effect_bind _ _ 0 0 0 0); [apply effect_remove_temp | intro; exact IH].
Qed.

Lemma effect_generate_call E c : effect (generate_call E c) 0 1.
Proof.
  intros s r s' H. unfold generate_call, bind, modify, lift in H.
  injection H as _ <-. split; [|split].
  - intros [] h; cbn; auto.
  - exists []. rewrite app_nil_r. cbn. intuition.
  - exists [c]. cbn. auto.
Qed.

Lemma steps_log_load v s : slot_of v s = None -> steps 1 0 s (log_load v s).
Proof.
  intro Hs. split; [|split].
  - intros [] h; cbn; auto.
  - exists [v]. split; [reflexivity|]. split; [cbn; lia|]. intros v' [<- | []]. exact Hs.
  - exists []. rewrite app_nil_r. cbn. auto.
Qed.

Lemma steps_set_slot v h s : slot_of v s = None -> steps 0 0 s (set_slot v h s).
Proof.
  intro Hs. split; [|split].
  - intros v' h'; destruct v, v'; cbn in *; congruence.
  - exists []. rewrite app_nil_r. split; [destruct v; reflexivity | cbn; intuition].
  - exists []. rewrite app_nil_r. split; [destruct v; reflexivity | cbn; lia].
Qed.

Lemma effect_load_slot E v : effect (load_slot E v) 1 0.
Proof.
  intros s r s' H. unfold load_slot, bind, gets, modify, lift, ret in H.
  destruct (slot_of v s) as [h|] eqn:Hs.
  - injection H as _ <-. apply (steps_mono 0 0); [lia | lia | apply steps_refl].
  - destruct (from_pretrained E v _) as [h|e]; injection H as _ <-.
    + apply (steps_trans 1 0 0 0 _ (log_load v s)); [apply steps_log_load, Hs|].
      apply steps_set_slot. destruct v; exact Hs.
    + apply steps_log_load, Hs.
Qed.

Lemma effect_get_model E l mode : effect (get_model E l mode) 1 0.
Proof.
  unfold get_model.
  destruct (String.eqb mode "voice_clone"); [|destruct (is_none l || py_eq_str l "en")];
    (apply effect_bind_r; [apply effect_load_slot | intro; apply effect_ret]).
Qed.

Lemma effect_zero_any {A} (m : M A) a b : effect m 0 0 -> effect m a b.
Proof. apply effect_mono; lia. Qed.

Ltac eff_leaf :=
  apply effect_zero_any;
  first [ apply effect_py_get | apply effect_py_getitem | apply effect_save
        | apply effect_remove_temp | apply effect_cleanup_paths
        | solve [repeat (eff_zero || apply effect_save)] ].

Ltac eff_step :=
  match goal with
  | |- effect (bind (get_model _ _ _) _) _ _ =>
      apply (effect_bind _ _ 1 0 0 1); [apply effect_get_model | intro]
  | |- effect (bind (generate_call _ _) _) _ _ =>
      apply (effect_bind_r _ _ 0 1); [apply effect_generate_call | intro]
  | |- effect (bind (if _ then generate_call _ _ else generate_call _ _) _) _ _ =>
      apply (effect_bind_r _ _ 0 1);
      [destruct (_ && _); apply effect_generate_call | intro]
  | |- effect (bind _ _) ?a ?b =>
      apply (effect_bind _ _ 0 0 a b); [eff_leaf | intro]
  | |- effect (try_finally _ _) _ _ => apply effect_try_finally; [|eff_leaf]
  | |- effect (if ?c then _ else _) _ _ => destruct c
  | |- effect (match ?x with _ => _ end) _ _ => destruct x
  | |- effect (ret _) _ _ => apply effect_zero_any, effect_ret
  | |- effect (raise _) _ _ => apply effect_zero_any, effect_raise
  | |- effect (lift _) _ _ => apply effect_zero_any, effect_lift
  end.

Lemma effect_tts_generate E model mt text lang vsb app rp minp topp ex cfg temp rf :
  effect (tts_generate_and_encode E model mt text lang vsb app rp minp topp ex cfg temp rf) 0 1.
Proof. unfold tts_generate_and_encode. repeat eff_step. Qed.

Lemma effect_vc_generate E model mt sp tp rf :
  effect (vc_generate_and_encode E model mt sp tp rf) 0 1.
Proof. unfold vc_generate_and_encode. repeat eff_step. Qed.

Lemma effect_handle_tts E ji : effect (handle_tts E ji) 1 1.
Proof.
  unfold handle_tts. repeat (eff_step || apply effect_tts_generate).
Qed.

Lemma effect_handle_voice_clone E ji : effect (handle_voice_clone E ji) 1 1.
Proof.
  unfold handle_voice_clone. repeat (eff_step || apply effect_vc_generate).
Qed.

Lemma effect_handler E job : effect (handler E job) 1 1.
Proof.
  unfold handler, handler_body. apply effect_try_except; [|intro; apply effect_ret].
  apply (effect_bind _ _ 0 0 1 1); [apply effect_py_getitem | intro].
  apply (effect_bind _ _ 0 0 1 1); [apply effect_py_get | intro].
  destruct (py_eq_str _ _); [apply effect_handle_voice_clone | apply effect_handle_tts].
Qed.

(** ** Files *)

Lemma kf_ret {A} (x : A) : keeps_files (ret x).
Proof. intros s r s' H. injection H as _ <-. auto. Qed.

Lemma kf_raise {A} e : keeps_files (A := A) (raise e).
Proof. intros s r s' H. injection H as _ <-. auto. Qed.

Lemma kf_gets {A} (f : state -> A) : keeps_files (gets f).
Proof. intros s r s' H. injection H as _ <-. auto. Qed.

Lemma kf_lift {A} (x : result A) : keeps_files (lift x).
Proof. intros s r s' H. injection H as _ <-. auto. Qed.

Lemma kf_modify f : (forall s, files (f s) = files s /\ next_tmp (f s) = next_tmp s) ->
  keeps_files (modify f).
Proof. intros Hf s r s' H. injection H as _ <-. apply Hf. Qed.

Lemma kf_bind {A B} (m : M A) (k : A -> M B) :
  keeps_files m -> (forall a, keeps_files (k a)) -> keeps_files (bind m k).
Proof.
  intros Hm Hk s r s2. unfold bind.
  destruct (m s) as [[a|e] s1] eqn:E1; intro H.
  - destruct (Hm _ _ _ E1), (Hk a _ _ _ H). split; congruence.
  - injection H as _ <-. exact (Hm _ _ _ E1).
Qed.

Ltac kf_step :=
  match goal with
  | |- keeps_files (bind _ _) => apply kf_bind; [|intro]
  | |- keeps_files (ret _) => apply kf_ret
  | |- keeps_files (raise _) => apply kf_raise
  | |- keeps_files (gets _) => apply kf_gets
  | |- keeps_files (lift _) => apply kf_lift
  | |- keeps_files (modify _) => apply kf_modify; intro; split; reflexivity
  | |- keeps_files (if ?b then _ else _) => destruct b
  | |- keeps_files (match ?x with _ => _ end) => destruct x
  end.

Lemma kf_py_get d k dflt : keeps_files (py_get d k dflt).
Proof. unfold py_get. repeat kf_step. Qed.

Lemma kf_py_getitem d k : keeps_files (py_getitem d k).
Proof. unfold py_getitem. repeat kf_step. Qed.

Lemma kf_get_model E l mode : keeps_files (get_model E l mode).
Proof.
  unfold get_model, load_slot. repeat kf_step.
Qed.

Lemma kf_tts_generate E model mt text lang vsb app rp minp topp ex cfg temp rf :
  keeps_files (tts_generate_and_encode E model mt text lang vsb app rp minp topp ex cfg temp rf).
Proof. unfold tts_generate_and_encode, generate_call. repeat kf_step. Qed.

Lemma kf_vc_generate E model mt sp tp rf : keeps_files (vc_generate_and_encode E model mt sp tp rf).
Proof. unfold vc_generate_and_encode, generate_call. repeat kf_step. Qed.

Lemma bind_ret_s {A B} (x : A) (k : A -> M B) s : bind (ret x) k s = k x s.
Proof. reflexivity. Qed.

Lemma kf_bind_inv {A B} (m : M A) (k : A -> M B) s r s2 :
  keeps_files m -> bind m k s = (r, s2) ->
  (exists a s1, files s1 = files s /\ next_tmp s1 = next_tmp s /\ k a s1 = (r, s2))
  \/ files s2 = files s.
Proof.
  intros Hm. unfold bind. destruct (m s) as [[a|e] s1] eqn:E1; intro H.
  - left. destruct (Hm _ _ _ E1). eauto.
  - right. injection H as _ <-. apply (Hm _ _ _ E1).
Qed.

Lemma kf_try_finally_inv {A} (m : M A) g s r s2 :
  keeps_files m -> try_finally m g s = (r, s2) ->
  exists s1 r1, files s1 = files s /\ next_tmp s1 = next_tmp s /\ g s1 = (r1, s2).
Proof.
  intros Hm. unfold try_finally. destruct (m s) as [r' s1] eqn:E1.
  destruct (Hm _ _ _ E1) as [F1 N1]. destruct (g s1) as [[u|e] s'] eqn:E2; intro H;
    injection H as _ <-; eauto.
Qed.

Lemma catch_inv {A B} (m : M A) (k : result A -> M B) s r s2 :
  bind (catch m) k s = (r, s2) -> exists r1 s1, m s = (r1, s1) /\ k r1 s1 = (r, s2).
Proof.
  unfold bind, catch. destruct (m s) as [r1 s1]. eauto.
Qed.

Lemma save_files E v s r s1 :
  (forall p d, write_fails E p d = None) ->
  save_base64_to_temp_file E v s = (r, s1) ->
  (s1 = s /\ exists e, r = Exc e) \/
  (r = Ok (temp_name (next_tmp s)) /\ files s1 = temp_name (next_tmp s) :: files s /\
   next_tmp s1 = S (next_tmp s)).
Proof.
  intros Hw. unfold save_base64_to_temp_file, bind, lift, gets, modify, ret.
  destruct (b64decode v) as [d|e].
  - rewrite Hw. intro H. injection H as <- <-. right. auto.
  - intro H. injection H as <- <-. left. eauto.
Qed.

Lemma drop_path_not_in p l : existsb (String.eqb p) l = false -> drop_path p l = l.
Proof.
  induction l as [|q l IH]; cbn; [reflexivity|].
  intro H. apply orb_false_iff in H as [H1 H2].
  rewrite String.eqb_sym, H1. cbn. f_equal. auto.
Qed.

Lemma drop_path_fresh p l : ~ In p l -> drop_path p l = l.
Proof.
  intro H. apply drop_path_not_in.
  destruct (existsb (String.eqb p) l) eqn:E; [|reflexivity].
  apply existsb_exists in E as (q & Hq & Eq). apply String.eqb_eq in Eq. subst q.
  contradiction.
Qed.

Lemma remove_temp_files E n s r s1 :
  (forall p, unlink_fails E p = None) ->
  remove_temp E (Some (temp_name n)) s = (r, s1) ->
  files s1 = drop_path (temp_name n) (files s) /\ next_tmp s1 = next_tmp s.
Proof.
  intros Hu. unfold remove_temp, path_exists, os_unlink, try_except, bind, gets, ret, modify.
  rewrite Hu. cbn [temp_name String.append String.eqb negb].
  destruct (existsb _ (files s)) eqn:Ex; intro H; injection H as _ <-.
  - split; reflexivity.
  - rewrite drop_path_not_in by exact Ex. split; reflexivity.
Qed.

Lemma tts_files E ji s r s' :
  (forall p d, write_fails E p d = None) -> (forall p, unlink_fails E p = None) ->
  temps_fresh s -> handle_tts E ji s = (r, s') -> files s' = files s.
Proof.
  intros Hw Hu Hf H. unfold handle_tts in H.
  destruct ji as [| | | | | | kv]; try (cbn in H; injection H as _ <-; reflexivity).
  cbn [py_get] in H. rewrite bind_ret_s in H.
  destruct (negb (truthy _)). { injection H as _ <-. reflexivity. }
  rewrite !bind_ret_s in H.
  destruct (kf_bind_inv _ _ _ _ _ (kf_get_model _ _ _) H) as [([model mt] & s1 & F1 & N1 & H1) | F];
    [clear H | exact F].
  cbv beta iota in H1. rewrite bind_ret_s in H1.
  destruct (truthy _) eqn:Hv.
  - apply catch_inv in H1 as (r1 & s2 & Hs & H2).
    unfold bind at 1 in Hs.
    destruct (save_base64_to_temp_file E _ s1) as [r0 s0] eqn:Es.
    destruct (save_files _ _ _ _ _ Hw Es) as [[-> [e ->]] | [-> [Fs Ns]]].
    + injection Hs as <- <-. cbv beta iota in H2. injection H2 as _ <-. exact F1.
    + injection Hs as <- <-. cbv beta iota in H2. rewrite !bind_ret_s in H2.
      destruct (kf_try_finally_inv _ _ _ _ _ (kf_tts_generate _ _ _ _ _ _ _ _ _ _ _ _ _ _) H2)
        as (s3 & r3 & F3 & N3 & H3).
      apply remove_temp_files in H3 as [F4 _]; [|exact Hu].
      rewrite F4, F3, Fs. cbn [drop_path filter]. rewrite String.eqb_refl. cbn [negb].
      fold (drop_path (temp_name (next_tmp s1)) (files s1)).
      rewrite drop_path_fresh; [exact F1|]. rewrite F1, N1. apply Hf. lia.
  - rewrite bind_ret_s in H1. cbv beta iota in H1. rewrite !bind_ret_s in H1.
    destruct (kf_try_finally_inv _ _ _ _ _ (kf_tts_generate _ _ _ _ _ _ _ _ _ _ _ _ _ _) H1)
      as (s3 & r3 & F3 & N3 & H3).
    cbn in H3. injection H3 as _ <-. congruence.
Qed.

Lemma cleanup_files E ps : forall s r s1,
  (forall p, unlink_fails E p = None) ->
  Forall (fun p => match p with Some q => exists n, q = temp_name n | None => True end) ps ->
  cleanup_paths E ps s = (r, s1) ->
  files s1 = drop_paths ps (files s) /\ next_tmp s1 = next_tmp s.
Proof.
  induction ps as [|p ps IH]; intros s r s1 Hu Hps H.
  - cbn in H. injection H as _ <-. auto.
  - apply Forall_cons_iff in Hps as [Hp Hps].
    cbn [cleanup_paths] in H. unfold bind at 1 in H.
    destruct (remove_temp E p s) as [r0 s0] eqn:E0.
    assert (Hs0 : files s0 = match p with Some q => drop_path q (files s) | None => files s end
                  /\ next_tmp s0 = next_tmp s).
    { destruct p as [q|].
      - destruct Hp as [n ->]. exact (remove_temp_files _ _ _ _ _ Hu E0).
      - cbn in E0. injection E0 as _ <-. auto. }
    assert (Hr0 : exists u, r0 = Ok u).
    { destruct p as [q|]; [|cbn in E0; injection E0 as <- _; eauto].
      revert E0. unfold remove_temp, path_exists, os_unlink, try_except, bind, gets, ret, modify.
      destruct (negb _); [|intro E0; injection E0 as <- _; eauto].
      destruct (existsb _ _); [|intro E0; injection E0 as <- _; eauto].
      destruct (unlink_fails E q); intro E0; injection E0 as <- _; eauto. }
    destruct Hr0 as [u ->]. destruct Hs0 as [F0 N0].
    destruct (IH _ _ _ Hu Hps H) as [F1 N1].
    cbn [drop_paths fold_left]. rewrite F1, F0, N1, N0. destruct p; auto.
Qed.

Lemma vc_files E ji s r s' :
  (forall p d, write_fails E p d = None) -> (forall p, unlink_fails E p = None) ->
  temps_fresh s -> handle_voice_clone E ji s = (r, s') -> files s' = files s.
Proof.
  intros Hw Hu Hf H. unfold handle_voice_clone in H.
  destruct ji as [| | | | | | kv]; try (cbn in H; injection H as _ <-; reflexivity).
  cbn [py_get] in H. rewrite !bind_ret_s in H.
  destruct (negb (truthy _)). { injection H as _ <-. reflexivity. }
  destruct (negb (truthy _)). { injection H as _ <-. reflexivity. }
  rewrite bind_ret_s in H.
  destruct (kf_bind_inv _ _ _ _ _ (kf_get_model _ _ _) H) as [([model mt] & s1 & F1 & N1 & H1) | F];
    [clear H | exact F].
  cbv beta iota in H1.
  apply catch_inv in H1 as (r1 & s2 & Hs1 & H2).
  destruct (save_files _ _ _ _ _ Hw Hs1) as [[-> [e ->]] | [-> [Fs1 Ns1]]].
  - cbv beta iota in H2.
    destruct (kf_try_finally_inv _ _ _ _ _ (kf_raise _) H2) as (s3 & r3 & F3 & N3 & H3).
    cbn in H3. injection H3 as _ <-. congruence.
  - cbv beta iota in H2.
    apply catch_inv in H2 as (r2 & s3 & Hs2 & H3).
    assert (Fr0 : ~ In (temp_name (next_tmp s1)) (files s1)).
    { rewrite F1, N1. apply Hf. lia. }
    assert (Fr1 : ~ In (temp_name (S (next_tmp s1))) (files s1)).
    { rewrite F1, N1. apply Hf. lia. }
    destruct (save_files _ _ _ _ _ Hw Hs2) as [[-> [e ->]] | [-> [Fs2 Ns2]]].
    + cbv beta iota in H3.
      destruct (kf_try_finally_inv _ _ _ _ _ (kf_raise _) H3) as (s4 & r4 & F4 & N4 & H4).
      apply cleanup_files in H4 as [F5 _];
        [| exact Hu | repeat constructor; eexists; reflexivity].
      rewrite F5, F4, Fs1. cbn [drop_paths fold_left drop_path filter].
      rewrite String.eqb_refl. cbn [negb].
      fold (drop_path (temp_name (next_tmp s1)) (files s1)).
      rewrite drop_path_fresh by exact Fr0. exact F1.
    + cbv beta iota in H3.
      destruct (kf_try_finally_inv _ _ _ _ _ (kf_vc_generate _ _ _ _ _ _) H3)
        as (s4 & r4 & F4 & N4 & H4).
      apply cleanup_files in H4 as [F5 _];
        [| exact Hu | repeat constructor; eexists; reflexivity].
      rewrite F5, F4, Fs2, Ns1, Fs1. cbn [drop_paths fold_left drop_path filter].
      rewrite String.eqb_refl. cbn [negb].
      destruct (String.eqb (temp_name (S (next_tmp s1))) (temp_name (next_tmp s1))) eqn:Eq;
        cbn [negb filter]; rewrite ?String.eqb_refl; cbn [negb];
        fold (drop_path (temp_name (next_tmp s1)) (files s1));
        rewrite (drop_path_fresh _ _ Fr0);
        fold (drop_path (temp_name (S (next_tmp s1))) (files s1));
        rewrite (drop_path_fresh _ _ Fr1); exact F1.
Qed.

Lemma handler_files E job s r s' :
  (forall p d, write_fails E p d = None) -> (forall p, unlink_fails E p = None) ->
  temps_fresh s -> handler E job s = (r, s') -> files s' = files s.
Proof.
  intros Hw Hu Hf H. unfold handler, try_except in H.
  destruct (handler_body E job s) as [[a|e] s1] eqn:Hb;
    [injection H as _ <- | cbn in H; injection H as _ <-];
  unfold handler_body in Hb;
  (destruct (kf_bind_inv _ _ _ _ _ (kf_py_getitem _ _) Hb) as [(ji & s2 & F2 & N2 & H2) | F];
    [clear Hb | exact F]);
  (destruct (kf_bind_inv _ _ _ _ _ (kf_py_get _ _ _) H2) as [(mode & s3 & F3 & N3 & H3) | F];
    [clear H2 | congruence]);
  (assert (Hf3 : temps_fresh s3) by (intros n Hn; rewrite F3, F2; apply Hf; lia));
  (destruct (py_eq_str mode "voice_clone");
    [ rewrite (vc_files _ _ _ _ _ Hw Hu Hf3 H3) | rewrite (tts_files _ _ _ _ _ Hw Hu Hf3 H3) ]);
  congruence.
Qed.

(** ** Failures of [os.unlink] *)

Lemma rsim_ret {A} (x : A) : rsim (ret x) (ret x).
Proof. intros s1 s2 H. split; [reflexivity | exact H]. Qed.

Lemma rsim_raise {A} e : rsim (A := A) (raise e) (raise e).
Proof. intros s1 s2 H. split; [reflexivity | exact H]. Qed.

Lemma rsim_lift {A} (x : result A) : rsim (lift x) (lift x).
Proof. intros s1 s2 H. split; [reflexivity | exact H]. Qed.

Lemma rsim_gets {A} (f : state -> A) :
  (forall s1 s2, same_but_files s1 s2 -> f s1 = f s2) -> rsim (gets f) (gets f).
Proof. intros Hf s1 s2 H. split; [cbn; f_equal; auto | exact H]. Qed.

Lemma rsim_modify f :
  (forall s1 s2, same_but_files s1 s2 -> same_but_files (f s1) (f s2)) ->
  rsim (modify f) (modify f).
Proof. intros Hf s1 s2 H. split; [reflexivity | exact (Hf _ _ H)]. Qed.

Lemma rsim_bind {A B} (m1 m2 : M A) (k1 k2 : A -> M B) :
  rsim m1 m2 -> (forall a, rsim (k1 a) (k2 a)) -> rsim (bind m1 k1) (bind m2 k2).
Proof.
  intros Hm Hk s1 s2 H. specialize (Hm s1 s2 H). unfold bind.
  destruct (m1 s1) as [r1 t1], (m2 s2) as [r2 t2]. cbn in Hm. destruct Hm as [<- Ht].
  destruct r1 as [a|e]; [exact (Hk a _ _ Ht) | split; [reflexivity | exact Ht]].
Qed.

Lemma rsim_try_except {A} (m1 m2 : M A) h1 h2 :
  rsim m1 m2 -> (forall e, rsim (h1 e) (h2 e)) -> rsim (try_except m1 h1) (try_except m2 h2).
Proof.
  intros Hm Hh s1 s2 H. specialize (Hm s1 s2 H). unfold try_except.
  destruct (m1 s1) as [r1 t1], (m2 s2) as [r2 t2]. cbn in Hm. destruct Hm as [<- Ht].
  destruct r1 as [a|e]; [split; [reflexivity | exact Ht] | exact (Hh e _ _ Ht)].
Qed.

Lemma rsim_catch {A} (m1 m2 : M A) : rsim m1 m2 -> rsim (catch m1) (catch m2).
Proof.
  intros Hm s1 s2 H. specialize (Hm s1 s2 H). unfold catch.
  destruct (m1 s1) as [r1 t1], (m2 s2) as [r2 t2]. cbn in *. destruct Hm as [<- Ht]. auto.
Qed.

Lemma rsim_try_finally {A} (m1 m2 : M A) g1 g2 :
  rsim m1 m2 -> rsim g1 g2 -> rsim (try_finally m1 g1) (try_finally m2 g2).
Proof.
  intros Hm Hg s1 s2 H. specialize (Hm s1 s2 H). unfold try_finally.
  destruct (m1 s1) as [r1 t1], (m2 s2) as [r2 t2]. cbn in Hm. destruct Hm as [<- Ht].
  specialize (Hg t1 t2 Ht).
  destruct (g1 t1) as [[u1|e1] t1'], (g2 t2) as [[u2|e2] t2']; cbn in Hg;
    destruct Hg as [Hr Ht']; try discriminate Hr; [auto|].
  injection Hr as ->. auto.
Qed.

Lemma remove_temp_ok E p s :
  fst (remove_temp E p s) = Ok tt /\ same_but_files s (snd (remove_temp E p s)).
Proof.
  assert (Hs : same_but_files s s) by (repeat split).
  unfold remove_temp, path_exists, os_unlink, try_except, bind, gets, ret, modify.
  destruct p as [q|]; [|auto].
  destruct (negb _); [|auto]. destruct (existsb _ _); [|auto].
  destruct (unlink_fails E q); [auto|]. cbn. repeat split.
Qed.

Lemma rsim_remove_temp E1 E2 p : rsim (remove_temp E1 p) (remove_temp E2 p).
Proof.
  intros s1 s2 H.
  destruct (remove_temp_ok E1 p s1) as [R1 S1], (remove_temp_ok E2 p s2) as [R2 S2].
  rewrite R1, R2. split; [reflexivity|].
  destruct S1 as (a1 & b1 & c1 & d1 & e1 & f1), S2 as (a2 & b2 & c2 & d2 & e2 & f2),
    H as (a & b & c & d & e & f).
  repeat split; congruence.
Qed.

Lemma rsim_cleanup_paths E1 E2 ps : rsim (cleanup_paths E1 ps) (cleanup_paths E2 ps).
Proof.
  induction ps as [|p ps IH]; cbn [cleanup_paths]; [apply rsim_ret|].
  apply rsim_bind; [apply rsim_remove_temp | intros _; exact IH].
Qed.

Ltac rsim_step :=
  match goal with
  | |- rsim (bind _ _) (bind _ _) => apply rsim_bind; [|intro]
  | |- rsim (ret _) (ret _) => apply rsim_ret
  | |- rsim (raise _) (raise _) => apply rsim_raise
  | |- rsim (lift _) (lift _) => apply rsim_lift
  | |- rsim (gets _) (gets _) =>
      apply rsim_gets; intros ? ? (? & ? & ? & ? & ? & ?); cbn; congruence
  | |- rsim (modify _) (modify _) =>
      apply rsim_modify; intros ? ? (? & ? & ? & ? & ? & ?);
      cbv [log_load set_slot create_temp log_call]; repeat split; cbn; congruence
  | |- rsim (try_except _ _) (try_except _ _) => apply rsim_try_except; [|intro]
  | |- rsim (catch _) (catch _) => apply rsim_catch
  | |- rsim (try_finally _ _) (try_finally _ _) => apply rsim_try_finally
  | |- rsim (remove_temp _ _) (remove_temp _ _) => apply rsim_remove_temp
  | |- rsim (cleanup_paths _ _) (cleanup_paths _ _) => apply rsim_cleanup_paths
  | |- rsim (if ?b then _ else _) _ => destruct b
  | |- rsim (match ?x with _ => _ end) _ => destruct x
  end.

Lemma rsim_handler E u1 u2 job :
  rsim (handler (with_unlink E u1) job) (handler (with_unlink E u2) job).
Proof.
  unfold handler, handler_body, handle_tts, handle_voice_clone, tts_generate_and_encode,
    vc_generate_and_encode, get_model, load_slot, save_base64_to_temp_file, generate_call,
    py_get, py_getitem.
  cbn [with_unlink from_pretrained generate model_sr ta_save write_fails].
  repeat rsim_step.
Qed.

(** ** Audio of a response *)

Lemma save_ok E v s p s1 :
  save_base64_to_temp_file E v s = (Ok p, s1) ->
  p = temp_name (next_tmp s) /\ calls s1 = calls s /\ next_tmp s1 = S (next_tmp s) /\
  exists d, b64decode v = Ok d.
Proof.
  unfold save_base64_to_temp_file, bind, lift, gets, modify, ret, raise.
  destruct (b64decode v) as [d|e]; [|intro H; discriminate H].
  destruct (write_fails E _ d); intro H; [discriminate H|].
  injection H as <- <-. repeat split; eauto.
Qed.

Lemma saved_ok E vsb s vtp s1 :
  (if truthy vsb then catch (p <- save_base64_to_temp_file E vsb ;; ret (Some p))
   else ret (Ok None)) s = (Ok (Ok vtp), s1) ->
  vtp = (if truthy vsb then Some (temp_name (next_tmp s)) else None).
Proof.
  destruct (truthy vsb); [|intro H; injection H as <- _; reflexivity].
  unfold catch, bind at 1.
  destruct (save_base64_to_temp_file E vsb s) as [[p|e] s2] eqn:Es; intro H;
    [|discriminate H].
  apply save_ok in Es as [-> _]. injection H as <- _. reflexivity.
Qed.

Lemma frame_cleanup_paths E ps : frame (cleanup_paths E ps).
Proof.
  induction ps as [|p ps IH]; cbn [cleanup_paths]; [apply frame_ret|].
  apply frame_bind; [apply frame_remove_temp | intros _; exact IH].
Qed.

Lemma effect_calls {A} (m : M A) a s r s1 :
  effect m a 0 -> m s = (r, s1) -> calls s1 = calls s.
Proof.
  intros Hm H. destruct (Hm s r s1 H) as (_ & _ & ([|c lc] & C & L)).
  - rewrite C, app_nil_r. reflexivity.
  - cbn in L. lia.
Qed.

Lemma hoare_bind_quiet {A B} (m : M A) (k : A -> M B) a P :
  effect m a 0 -> (forall x, hoare (k x) P) -> hoare (bind m k) P.
Proof.
  intros Hm Hk s r s' H. apply bind_ok_inv in H as (x & s1 & H1 & H2).
  rewrite <- (effect_calls m a s _ s1 Hm H1). exact (Hk x s1 r s' H2).
Qed.

Lemma hoare_try_finally {A} (m : M A) f a P :
  hoare m P -> effect f a 0 -> hoare (try_finally m f) P.
Proof.
  intros Hm Hf s r s' H. apply try_finally_ok_inv in H as (s1 & u & H1 & H2).
  rewrite (effect_calls f a s1 _ s' Hf H2). exact (Hm s r s1 H1).
Qed.

Lemma hoare_raise {A} e P : hoare (A := A) (raise e) P.
Proof. intros s r s' H. discriminate H. Qed.

Lemma hoare_no_audio E v :
  resp_get "audio_base64" v = None -> hoare (ret v) (audio_logged E).
Proof. intros Hv s r s' H a Ha. injection H as <- _. rewrite Hv in Ha. discriminate Ha. Qed.

Lemma audio_logged_call E s c w bs r :
  generate E c = Ok w -> ta_save E w (model_sr E (call_model c)) = Ok bs ->
  resp_get "sample_rate" r = Some (PInt (model_sr E (call_model c))) ->
  (forall a, resp_get "audio_base64" r = Some (PStr a) -> a = b64encode bs) ->
  audio_logged E (calls s) (calls s ++ [c])%list r.
Proof.
  intros G T Sr Ha a Hr. apply Ha in Hr as ->.
  exists c, w, bs. repeat split; auto. apply b64_roundtrip.
Qed.

Lemma generate_call_ok E c s w s1 :
  generate_call E c s = (Ok w, s1) -> generate E c = Ok w /\ s1 = log_call c s.
Proof.
  unfold generate_call, bind, modify, lift.
  destruct (generate E c); intro H; [injection H as <- <-; auto | discriminate H].
Qed.

Lemma hoare_tts_generate E model mt text lang vsb app rp minp topp ex cfg temp rf :
  hoare (tts_generate_and_encode E model mt text lang vsb app rp minp topp ex cfg temp rf)
    (audio_logged E).
Proof.
  intros s r s' H. unfold tts_generate_and_encode in H.
  apply bind_ok_inv in H as (w & s1 & H1 & H).
  set (c := if String.eqb mt "multilingual" && truthy lang
            then GenTTS model text (Some lang) rp minp topp app ex cfg temp
            else GenTTS model text None rp minp topp app ex cfg temp).
  assert (Hc : generate_call E c s = (Ok w, s1)) by (unfold c; destruct (_ && _); exact H1).
  apply generate_call_ok in Hc as [G ->].
  apply bind_ok_inv in H as (bs & s2 & H2 & H).
  unfold lift in H2. destruct (ta_save E w (model_sr E model)) eqn:T; [|discriminate H2].
  injection H2 as -> <-.
  assert (Hm : call_model c = model) by (unfold c; destruct (_ && _); reflexivity).
  destruct (py_eq_str rf "base64"); injection H as <- <-;
    apply (audio_logged_call E s c w bs); rewrite ?Hm; auto;
    intros a Ha; cbn in Ha; try discriminate Ha; injection Ha as <-; reflexivity.
Qed.

Lemma hoare_vc_generate E model mt sp tp rf :
  hoare (vc_generate_and_encode E model mt sp tp rf) (audio_logged E).
Proof.
  intros s r s' H. unfold vc_generate_and_encode in H.
  apply bind_ok_inv in H as (w & s1 & H1 & H).
  apply generate_call_ok in H1 as [G ->].
  apply bind_ok_inv in H as (bs & s2 & H2 & H).
  unfold lift in H2. destruct (ta_save E w (model_sr E model)) eqn:T; [|discriminate H2].
  injection H2 as -> <-.
  destruct (py_eq_str rf "base64"); injection H as <- <-;
    apply (audio_logged_call E s (GenVC model sp tp) w bs); auto;
    intros a Ha; cbn in Ha; try discriminate Ha; injection Ha as <-; reflexivity.
Qed.

Ltac hoare_step :=
  match goal with
  | |- hoare (bind (get_model _ _ _) _) _ =>
      apply (hoare_bind_quiet _ _ 1); [apply effect_get_model | intro]
  | |- hoare (bind _ _) _ =>
      apply (hoare_bind_quiet _ _ 0); [solve [repeat (eff_step || eff_leaf)] | intro]
  | |- hoare (try_finally (tts_generate_and_encode _ _ _ _ _ _ _ _ _ _ _ _ _ _) _) _ =>
      apply (hoare_try_finally _ _ 0); [apply hoare_tts_generate | eff_leaf]
  | |- hoare (try_finally (vc_generate_and_encode _ _ _ _ _ _) _) _ =>
      apply (hoare_try_finally _ _ 0); [apply hoare_vc_generate | eff_leaf]
  | |- hoare (try_finally (raise _) _) _ =>
      apply (hoare_try_finally _ _ 0); [apply hoare_raise | eff_leaf]
  | |- hoare (ret _) _ => apply hoare_no_audio; reflexivity
  | |- hoare (raise _) _ => apply hoare_raise
  | |- hoare (if ?b then _ else _) _ => destruct b
  | |- hoare (match ?x with _ => _ end) _ => destruct x
  end.

Lemma hoare_handle_tts E ji : hoare (handle_tts E ji) (audio_logged E).
Proof. unfold handle_tts. repeat hoare_step. Qed.

Lemma hoare_handle_voice_clone E ji : hoare (handle_voice_clone E ji) (audio_logged E).
Proof. unfold handle_voice_clone. repeat hoare_step. Qed.

(** ** Further properties of the handler *)

(** X1. [handle_voice_clone] answers with an error response, and leaves the
    state unchanged, when the source audio is missing or falsy, and when the
    source is given but the target voice is missing or falsy. *)
Theorem voice_clone_missing_audio : forall E kv s,
  (truthy (dict_get kv "source_audio_base64" PNone) = false ->
   handle_voice_clone E (PDict kv) s = (Ok (error_resp "No source_audio_base64 provided"), s))
  /\ (truthy (dict_get kv "source_audio_base64" PNone) = true ->
      truthy (dict_get kv "target_voice_base64" PNone) = false ->
      handle_voice_clone E (PDict kv) s = (Ok (error_resp "No target_voice_base64 provided"), s)).
Proof.
  intros E kv s. unfold dict_get.
  split; [intro Hs | intros Hs Ht]; unfold handle_voice_clone; cbn [py_get];
    rewrite !bind_ret_s; rewrite Hs; [reflexivity|]; rewrite Ht; reflexivity.
Qed.

Lemma voice_clone_missing_audio_witness :
  handle_voice_clone env_ok (PDict [("target_voice_base64", PStr "UklGRg==")]) st0
    = (Ok (error_resp "No source_audio_base64 provided"), st0)
  /\ handle_voice_clone env_ok (PDict [("source_audio_base64", PStr "UklGRg==");
                                      ("target_voice_base64", PStr "")]) st0
    = (Ok (error_resp "No target_voice_base64 provided"), st0).
Proof.
  split.
  - apply (proj1 (voice_clone_missing_audio env_ok _ st0)). reflexivity.
  - apply (proj2 (voice_clone_missing_audio env_ok _ st0)); reflexivity.
Defined.

(** X2. A job without an [input] key: [job['input']] raises [KeyError], and
    the handler answers [{"error": "'input'"}] without touching the state. *)
Theorem handler_missing_input : forall E jkv s,
  assoc "input" jkv = None ->
  handler E (PDict jkv) s = (Ok (error_resp "'input'"), s).
Proof.
  intros E jkv s H. unfold handler, try_except, handler_body, bind, py_getitem.
  rewrite H. reflexivity.
Qed.

Lemma handler_missing_input_witness :
  handler env_ok (PDict [("id", PStr "job-1")]) st0 = (Ok (error_resp "'input'"), st0).
Proof. apply handler_missing_input. reflexivity. Defined.

(** X3. A job whose [input] is not a dict: [job_input.get] raises
    [AttributeError], and the handler answers with Python's message for it. *)
Theorem handler_input_not_dict : forall E jkv ji s,
  assoc "input" jkv = Some ji -> is_dict ji = false ->
  handler E (PDict jkv) s =
    (Ok (error_resp ("'" ++ type_name ji ++ "' object has no attribute 'get'")), s).
Proof.
  intros E jkv ji s H Hd. unfold handler, try_except, handler_body, bind, py_getitem.
  rewrite H. destruct ji; try discriminate Hd; reflexivity.
Qed.

Lemma handler_input_not_dict_witness :
  handler env_ok (PDict [("input", PStr "Hello")]) st0 =
    (Ok (error_resp "'str' object has no attribute 'get'"), st0).
Proof. apply (handler_input_not_dict env_ok _ (PStr "Hello")); reflexivity. Defined.

(** X4. A handler run never drops or replaces a model already cached in
    its global slot. *)
Theorem handler_keeps_cached_models : forall E job s r s' v h,
  handler E job s = (r, s') -> slot_of v s = Some h -> slot_of v s' = Some h.
Proof.
  intros E job s r s' v h H Hs. exact (proj1 (effect_handler E job s r s' H) v h Hs).
Qed.

Lemma handler_keeps_cached_models_witness :
  handler env_ok (job_of [("text", PStr "Hi")]) (mkState (Some 7) None None [] 0 [] []) =
    (Ok (PDict [("audio_base64", PStr "UklGRg=="); ("sample_rate", PInt 24000);
                ("format", PStr "wav"); ("language_id", PNone);
                ("model_type", PStr "english"); ("mode", PStr "tts");
                ("voice_cloned", PBool false)]),
     mkState (Some 7) None None [] 0 []
       [GenTTS 7 (PStr "Hi") None (PNum (12 # 10)) (PNum (5 # 100)) (PNum 1)
          PNone (PNum (5 # 10)) (PNum (5 # 10)) (PNum (8 # 10))])
  /\ slot_of English (mkState (Some 7) None None [] 0 []
       [GenTTS 7 (PStr "Hi") None (PNum (12 # 10)) (PNum (5 # 100)) (PNum 1)
          PNone (PNum (5 # 10)) (PNum (5 # 10)) (PNum (8 # 10))]) = Some 7.
Proof.
  split; [reflexivity|].
  exact (handler_keeps_cached_models env_ok (job_of [("text", PStr "Hi")])
           (mkState (Some 7) None None [] 0 [] []) _ _ English 7 eq_refl eq_refl).
Defined.

(** X5. A handler run loads at most one model, and only one whose global
    slot was empty. *)
Theorem handler_loads_at_most_once : forall E job s r s',
  handler E job s = (r, s') ->
  loads s' = loads s \/ exists v, loads s' = (loads s ++ [v])%list /\ slot_of v s = None.
Proof.
  intros E job s r s' H.
  destruct (effect_handler E job s r s' H) as (_ & (lv & L1 & L2 & L3) & _).
  destruct lv as [|v [|v' lv]].
  - left. rewrite L1, app_nil_r. reflexivity.
  - right. exists v. split; [exact L1 | apply L3; left; reflexivity].
  - cbn in L2. lia.
Qed.

Lemma handler_loads_at_most_once_witness :
  handler env_ok (job_of [("text", PStr "Hi"); ("language_id", PStr "fr")]) st0 =
    (Ok (PDict [("audio_base64", PStr "UklGRg=="); ("sample_rate", PInt 24000);
                ("format", PStr "wav"); ("language_id", PStr "fr");
                ("model_type", PStr "multilingual"); ("mode", PStr "tts");
                ("voice_cloned", PBool false)]),
     mkState None (Some 0) None [] 0 [Multilingual]
       [GenTTS 0 (PStr "Hi") (Some (PStr "fr")) (PNum (12 # 10)) (PNum (5 # 100)) (PNum 1)
          PNone (PNum (5 # 10)) (PNum (5 # 10)) (PNum (8 # 10))])
  /\ ([Multilingual] = loads st0 \/
      exists v, [Multilingual] = (loads st0 ++ [v])%list /\ slot_of v st0 = None).
Proof.
  split; [reflexivity|].
  exact (handler_loads_at_most_once env_ok (job_of [("text", PStr "Hi"); ("language_id", PStr "fr")]) st0 _
           (mkState None (Some 0) None [] 0 [Multilingual]
              [GenTTS 0 (PStr "Hi") (Some (PStr "fr")) (PNum (12 # 10)) (PNum (5 # 100))
                 (PNum 1) PNone (PNum (5 # 10)) (PNum (5 # 10)) (PNum (8 # 10))])
           eq_refl).
Defined.

(** X6. A handler run calls a model's [generate] at most once. *)
Theorem handler_calls_model_at_most_once : forall E job s r s',
  handler E job s = (r, s') ->
  calls s' = calls s \/ exists c, calls s' = (calls s ++ [c])%list.
Proof.
  intros E job s r s' H.
  destruct (effect_handler E job s r s' H) as (_ & _ & (lc & C1 & C2)).
  destruct lc as [|c [|c' lc]].
  - left. rewrite C1, app_nil_r. reflexivity.
  - right. exists c. exact C1.
  - cbn in C2. lia.
Qed.

Lemma handler_calls_model_at_most_once_witness :
  handler env_ok (job_of [("text", PStr "Hi"); ("language_id", PStr "fr")]) st0 =
    (Ok (PDict [("audio_base64", PStr "UklGRg=="); ("sample_rate", PInt 24000);
                ("format", PStr "wav"); ("language_id", PStr "fr");
                ("model_type", PStr "multilingual"); ("mode", PStr "tts");
                ("voice_cloned", PBool false)]),
     mkState None (Some 0) None [] 0 [Multilingual]
       [GenTTS 0 (PStr "Hi") (Some (PStr "fr")) (PNum (12 # 10)) (PNum (5 # 100)) (PNum 1)
          PNone (PNum (5 # 10)) (PNum (5 # 10)) (PNum (8 # 10))])
  /\ (let c := GenTTS 0 (PStr "Hi") (Some (PStr "fr")) (PNum (12 # 10)) (PNum (5 # 100))
                 (PNum 1) PNone (PNum (5 # 10)) (PNum (5 # 10)) (PNum (8 # 10)) in
      [c] = calls st0 \/ exists c', [c] = (calls st0 ++ [c'])%list).
Proof.
  split; [reflexivity|].
  exact (handler_calls_model_at_most_once env_ok (job_of [("text", PStr "Hi"); ("language_id", PStr "fr")]) st0 _
           (mkState None (Some 0) None [] 0 [Multilingual]
              [GenTTS 0 (PStr "Hi") (Some (PStr "fr")) (PNum (12 # 10)) (PNum (5 # 100))
                 (PNum 1) PNone (PNum (5 # 10)) (PNum (5 # 10)) (PNum (8 # 10))])
           eq_refl).
Defined.

(** X7. When a response carries [audio_base64], the run logged exactly
    one model call; its audio decodes to the bytes [ta.save] wrote from the
    wav that call generated, at the sample rate of the model called, which
    is also the response's [sample_rate]. *)
Theorem handler_audio_decodes : forall E job s r s' a,
  handler E job s = (Ok r, s') -> resp_get "audio_base64" r = Some (PStr a) ->
  exists c w bs, calls s' = (calls s ++ [c])%list /\ generate E c = Ok w /\
    ta_save E w (model_sr E (call_model c)) = Ok bs /\ b64decode (PStr a) = Ok bs /\
    resp_get "sample_rate" r = Some (PInt (model_sr E (call_model c))).
Proof.
  intros E job s r s' a H Ha.
  assert (Hh : hoare (handler_body E job) (audio_logged E)).
  { unfold handler_body. repeat hoare_step;
      [apply hoare_handle_voice_clone | apply hoare_handle_tts]. }
  unfold handler, try_except in H.
  destruct (handler_body E job s) as [[b|e] s1] eqn:Hb.
  - injection H as <- <-. exact (Hh s b s1 Hb a Ha).
  - injection H as <- _. discriminate Ha.
Qed.

Lemma handler_audio_decodes_witness :
  handler env_ok (job_of [("text", PStr "Hello world")]) st0 =
    (Ok (PDict [("audio_base64", PStr "UklGRg=="); ("sample_rate", PInt 24000);
                ("format", PStr "wav"); ("language_id", PNone);
                ("model_type", PStr "english"); ("mode", PStr "tts");
                ("voice_cloned", PBool false)]),
     mkState (Some 0) None None [] 0 [English]
       [GenTTS 0 (PStr "Hello world") None (PNum (12 # 10)) (PNum (5 # 100)) (PNum 1)
          PNone (PNum (5 # 10)) (PNum (5 # 10)) (PNum (8 # 10))])
  /\ exists c w bs,
     [GenTTS 0 (PStr "Hello world") None (PNum (12 # 10)) (PNum (5 # 100)) (PNum 1)
        PNone (PNum (5 # 10)) (PNum (5 # 10)) (PNum (8 # 10))] = (calls st0 ++ [c])%list /\
     generate env_ok c = Ok w /\ ta_save env_ok w (model_sr env_ok (call_model c)) = Ok bs /\
     b64decode (PStr "UklGRg==") = Ok bs /\
     Some (PInt 24000) = Some (PInt (model_sr env_ok (call_model c))).
Proof.
  split; [reflexivity|].
  exact (handler_audio_decodes env_ok (job_of [("text", PStr "Hello world")]) st0 _
           (mkState (Some 0) None None [] 0 [English]
              [GenTTS 0 (PStr "Hello world") None (PNum (12 # 10)) (PNum (5 # 100))
                 (PNum 1) PNone (PNum (5 # 10)) (PNum (5 # 10)) (PNum (8 # 10))])
           "UklGRg==" eq_refl eq_refl).
Defined.

(** X8. [base64.b64decode] inverts [base64.b64encode] on every byte string. *)
Theorem b64_encode_decode : forall bs, b64decode (PStr (b64encode bs)) = Ok bs.
Proof. exact b64_roundtrip. Qed.

(** X9. When TTS mode produces a model response, the single model call it
    adds receives the request's text and its sampling parameters, with the
    code's defaults for those missing, and as audio prompt the temporary
    file of the voice sample when one is given, else [audio_prompt_path]. *)
Theorem tts_call_arguments : forall E kv s r s',
  truthy (dict_get kv "text" PNone) = true ->
  handle_tts E (PDict kv) s = (Ok r, s') ->
  resp_get "model_type" r <> None ->
  exists h lang, calls s' = (calls s ++
    [GenTTS h (dict_get kv "text" PNone) lang
       (dict_get kv "repetition_penalty" (PNum (12 # 10)))
       (dict_get kv "min_p" (PNum (5 # 100)))
       (dict_get kv "top_p" (PNum 1))
       (if truthy (dict_get kv "voice_sample_base64" PNone)
        then PStr (temp_name (next_tmp s))
        else dict_get kv "audio_prompt_path" PNone)
       (dict_get kv "exaggeration" (PNum (5 # 10)))
       (dict_get kv "cfg_weight" (PNum (5 # 10)))
       (dict_get kv "temperature" (PNum (8 # 10)))])%list.
Proof.
  intros E kv s r s' Ht H Hmt.
  unfold handle_tts in H.
  apply bind_ok_inv in H as (text & s1 & H1 & H).
  apply py_get_dict in H1 as [-> ->]. rewrite Ht in H. cbn [negb] in H.
  apply bind_ok_inv in H as (lang0 & s2 & H2 & H).
  apply py_get_dict in H2 as [-> ->].
  apply bind_ok_inv in H as (vsb & s3 & H3 & H).
  apply py_get_dict in H3 as [-> ->].
  apply bind_ok_inv in H as ([model mt] & s4 & H4 & H).
  destruct (kf_get_model _ _ _ _ _ _ H4) as [_ N4].
  apply get_model_tts in H4 as [_ Hc4].
  apply bind_ok_inv in H as (app & s5 & H5 & H).
  apply py_get_dict in H5 as [-> ->].
  apply bind_ok_inv in H as (saved & s6 & H6 & H).
  destruct (frame_tts_voice_sample E _ _ _ _ H6) as [Hc6 _].
  destruct saved as [vtp | e].
  2: { cbn in H. injection H as <- _. contradiction Hmt. reflexivity. }
  apply saved_ok in H6. rewrite N4 in H6.
  do 7 (apply bind_ok_inv in H as (? & ? & ?Hg & H);
        apply py_get_dict in Hg as [-> ->]).
  apply try_finally_ok_inv in H as (s7 & u & H7 & H8).
  apply tts_generate_calls in H7 as [_ Hc7].
  destruct (frame_remove_temp E _ _ _ _ H8) as [Hc8 _].
  do 2 eexists. rewrite Hc8, Hc7, Hc6, Hc4. subst vtp.
  destruct (truthy (dict_get kv "voice_sample_base64" PNone)); reflexivity.
Qed.

Lemma tts_call_arguments_witness :
  handle_tts env_ok (PDict [("text", PStr "Hi"); ("voice_sample_base64", PStr "UklGRg==");
                            ("temperature", PNum (6 # 10))]) st0 =
    (Ok (PDict [("audio_base64", PStr "UklGRg=="); ("sample_rate", PInt 24000);
                ("format", PStr "wav"); ("language_id", PNone);
                ("model_type", PStr "english"); ("mode", PStr "tts");
                ("voice_cloned", PBool true)]),
     mkState (Some 0) None None [] 1 [English]
       [GenTTS 0 (PStr "Hi") None (PNum (12 # 10)) (PNum (5 # 100)) (PNum 1)
          (PStr "/tmp/tmp0.wav") (PNum (5 # 10)) (PNum (5 # 10)) (PNum (6 # 10))])
  /\ exists h lang,
     [GenTTS 0 (PStr "Hi") None (PNum (12 # 10)) (PNum (5 # 100)) (PNum 1)
        (PStr "/tmp/tmp0.wav") (PNum (5 # 10)) (PNum (5 # 10)) (PNum (6 # 10))] =
     [GenTTS h (PStr "Hi") lang (PNum (12 # 10)) (PNum (5 # 100)) (PNum 1)
        (PStr (temp_name 0)) (PNum (5 # 10)) (PNum (5 # 10)) (PNum (6 # 10))].
Proof.
  split; [reflexivity|].
  exact (tts_call_arguments env_ok
           [("text", PStr "Hi"); ("voice_sample_base64", PStr "UklGRg==");
            ("temperature", PNum (6 # 10))] st0 _ _ eq_refl eq_refl ltac:(discriminate)).
Defined.

(** X10. A voice sample that fails to decode yields the error response
    [Invalid voice_sample_base64: <message>], with no model call and no
    file left behind. *)
Theorem tts_invalid_voice_sample : forall E kv s r s' e,
  truthy (dict_get kv "text" PNone) = true ->
  truthy (dict_get kv "voice_sample_base64" PNone) = true ->
  b64decode (dict_get kv "voice_sample_base64" PNone) = Exc e ->
  handle_tts E (PDict kv) s = (Ok r, s') ->
  r = error_resp ("Invalid voice_sample_base64: " ++ exn_str e) /\
  calls s' = calls s /\ files s' = files s.
Proof.
  intros E kv s r s' e Ht Hv Hd H.
  unfold handle_tts in H.
  apply bind_ok_inv in H as (text & s1 & H1 & H).
  apply py_get_dict in H1 as [-> ->]. rewrite Ht in H. cbn [negb] in H.
  apply bind_ok_inv in H as (lang0 & s2 & H2 & H).
  apply py_get_dict in H2 as [-> ->].
  apply bind_ok_inv in H as (vsb & s3 & H3 & H).
  apply py_get_dict in H3 as [-> ->].
  apply bind_ok_inv in H as ([model mt] & s4 & H4 & H).
  destruct (kf_get_model _ _ _ _ _ _ H4) as [F4 _].
  apply get_model_tts in H4 as [_ Hc4].
  apply bind_ok_inv in H as (app & s5 & H5 & H).
  apply py_get_dict in H5 as [-> ->].
  rewrite Hv in H. unfold bind at 1 in H. unfold catch at 1 in H.
  unfold save_base64_to_temp_file, bind at 1, lift at 1 in H. rewrite Hd in H.
  cbn in H. injection H as <- <-. auto.
Qed.

Lemma tts_invalid_voice_sample_witness :
  handle_tts env_ok (PDict [("text", PStr "Hi"); ("voice_sample_base64", PStr "ab")]) st0 =
    (Ok (error_resp "Invalid voice_sample_base64: Incorrect padding"),
     mkState (Some 0) None None [] 0 [English] [])
  /\ error_resp "Invalid voice_sample_base64: Incorrect padding" =
     error_resp ("Invalid voice_sample_base64: " ++ exn_str (binascii_error "Incorrect padding")).
Proof.
  split; [reflexivity|].
  exact (proj1 (tts_invalid_voice_sample env_ok
                  [("text", PStr "Hi"); ("voice_sample_base64", PStr "ab")] st0 _ _
                  (binascii_error "Incorrect padding") eq_refl eq_refl eq_refl eq_refl)).
Defined.

(** X11. When voice-clone mode produces a model response, both inputs
    decoded, and the one model call it adds receives the two temporary
    files drawn in turn: the source audio's, then the target voice's. *)
Theorem voice_clone_call_paths : forall E kv s r s',
  handle_voice_clone E (PDict kv) s = (Ok r, s') ->
  resp_get "model_type" r <> None ->
  (exists d, b64decode (dict_get kv "source_audio_base64" PNone) = Ok d) /\
  (exists d, b64decode (dict_get kv "target_voice_base64" PNone) = Ok d) /\
  exists h, calls s' =
    (calls s ++ [GenVC h (temp_name (next_tmp s)) (temp_name (S (next_tmp s)))])%list.
Proof.
  intros E kv s r s' H Hmt.
  unfold handle_voice_clone in H.
  apply bind_ok_inv in H as (src & s1 & H1 & H).
  apply py_get_dict in H1 as [-> ->].
  apply bind_ok_inv in H as (tgt & s2 & H2 & H).
  apply py_get_dict in H2 as [-> ->].
  destruct (negb (truthy _)).
  { injection H as <- _. contradiction Hmt. reflexivity. }
  destruct (negb (truthy _)).
  { injection H as <- _. contradiction Hmt. reflexivity. }
  apply bind_ok_inv in H as (rf & s3 & H3 & H).
  apply py_get_dict in H3 as [-> ->].
  apply bind_ok_inv in H as ([model mt] & s4 & H4 & H).
  destruct (kf_get_model _ _ _ _ _ _ H4) as [_ N4].
  assert (Hc4 : calls s4 = calls s).
  { destruct (effect_get_model _ _ _ _ _ _ H4) as (_ & _ & ([|c lc] & C & Hl)).
    - rewrite C, app_nil_r. reflexivity.
    - cbn in Hl. lia. }
  cbv beta iota in H.
  apply bind_ok_inv in H as (r1 & s5 & H5 & H).
  unfold catch in H5. destruct (save_base64_to_temp_file E _ s4) as [r1' s5'] eqn:Es1.
  injection H5 as <- <-.
  destruct r1' as [sp | e].
  2: { apply try_finally_ok_inv in H as (? & ? & H & _). discriminate H. }
  apply save_ok in Es1 as (-> & Cs1 & Ns1 & D1).
  apply bind_ok_inv in H as (r2 & s6 & H6 & H).
  unfold catch in H6. destruct (save_base64_to_temp_file E _ s5') as [r2' s6'] eqn:Es2.
  injection H6 as <- <-.
  destruct r2' as [tp | e].
  2: { apply try_finally_ok_inv in H as (? & ? & H & _). discriminate H. }
  apply save_ok in Es2 as (-> & Cs2 & Ns2 & D2).
  apply try_finally_ok_inv in H as (s7 & u & H7 & H8).
  destruct (frame_cleanup_paths E _ _ _ _ H8) as [Hc8 _].
  unfold vc_generate_and_encode, generate_call in H7.
  apply bind_ok_inv in H7 as (w & s9 & H9 & H10).
  apply bind_ok_inv in H10 as (b & s10 & H11 & H12).
  injection H11 as _ <-.
  assert (s7 = s9) as ->.
  { destruct (py_eq_str _ "base64"); injection H12 as _ <-; reflexivity. }
  unfold bind, modify, lift in H9.
  destruct (generate E _); [|discriminate H9]. injection H9 as _ <-.
  split; [exact D1|]. split; [exact D2|].
  exists model. rewrite Hc8. cbn [log_call calls]. rewrite Cs2, Cs1, Hc4, Ns1, N4.
  reflexivity.
Qed.

Lemma voice_clone_call_paths_witness :
  handle_voice_clone env_ok (PDict [("source_audio_base64", PStr "UklGRg=="); ("target_voice_base64", PStr "UklGRg==")]) st0 =
    (Ok (PDict [("audio_base64", PStr "UklGRg=="); ("sample_rate", PInt 24000);
                ("format", PStr "wav"); ("model_type", PStr "voice_clone");
                ("mode", PStr "voice_clone")]),
     mkState None None (Some 0) [] 2 [VoiceClone] [GenVC 0 "/tmp/tmp0.wav" "/tmp/tmp1.wav"])
  /\ (exists d, b64decode (PStr "UklGRg==") = Ok d) /\
     (exists d, b64decode (PStr "UklGRg==") = Ok d) /\
     exists h, [GenVC 0 "/tmp/tmp0.wav" "/tmp/tmp1.wav"] =
       (calls st0 ++ [GenVC h (temp_name 0) (temp_name 1)])%list.
Proof.
  split; [reflexivity|].
  exact (voice_clone_call_paths env_ok
           [("source_audio_base64", PStr "UklGRg=="); ("target_voice_base64", PStr "UklGRg==")]
           st0 _ (mkState None None (Some 0) [] 2 [VoiceClone] [GenVC 0 "/tmp/tmp0.wav" "/tmp/tmp1.wav"])
           eq_refl ltac:(discriminate)).
Defined.

(** X12. When writing and unlinking succeed, and no file bears a temporary
    name still to be drawn, a handler run leaves exactly the files it found. *)
Theorem handler_temp_files_removed : forall E job s r s',
  (forall p d, write_fails E p d = None) -> (forall p, unlink_fails E p = None) ->
  temps_fresh s -> handler E job s = (r, s') -> files s' = files s.
Proof. exact handler_files. Qed.

Lemma handler_temp_files_removed_witness :
  files (mkState None None (Some 0) ["/data/voice.wav"] 2 [VoiceClone]
           [GenVC 0 "/tmp/tmp0.wav" "/tmp/tmp1.wav"])
  = files (mkState None None None ["/data/voice.wav"] 0 [] []).
Proof.
  apply (handler_temp_files_removed env_ok
           (job_of [("mode", PStr "voice_clone");
                    ("source_audio_base64", PStr "UklGRg==");
                    ("target_voice_base64", PStr "UklGRg==")])
           (mkState None None None ["/data/voice.wav"] 0 [] [])
           (Ok (PDict [("audio_base64", PStr "UklGRg=="); ("sample_rate", PInt 24000);
                       ("format", PStr "wav"); ("model_type", PStr "voice_clone");
                       ("mode", PStr "voice_clone")]))).
  - intros p d. reflexivity.
  - intros p. reflexivity.
  - intros n _ [H | []]. unfold temp_name in H. simpl in H. discriminate H.
  - reflexivity.
Defined.

(** X13. The outcome of [os.unlink] never shows: whatever unlink fails, the
    response, the models, the load log and the call log are the same. *)
Theorem handler_unlink_failures_invisible : forall E u1 u2 job s,
  fst (handler (with_unlink E u1) job s) = fst (handler (with_unlink E u2) job s) /\
  same_but_files (snd (handler (with_unlink E u1) job s))
                 (snd (handler (with_unlink E u2) job s)).
Proof.
  intros E u1 u2 job s. apply rsim_handler. repeat split.
Qed.

Lemma example_response_unlink fh fg sr fs u kv :
  example_response (env_succeeding fh fg sr fs u) kv =
  example_response (env_succeeding fh fg sr fs (fun _ => None)) kv.
Proof.
  exact (f_equal (fun r => match r with Ok r => r | Exc _ => PNone end)
           (proj1 (rsim_handler (env_succeeding fh fg sr fs u) u (fun _ => None) (job_of kv)
                     st0 st0 ltac:(repeat split)))).
Qed.

(** X14. The five requests of [example_tts_voice_clone.py], on a cold
    process whose model loads, [model.generate], [ta.save] and file writes
    succeed, whatever values they return and whatever [os.unlink] does:
    the truncated sample ["UklGRiQAAABXQVZFZm10IBAAAAABAAEA..."] decodes
    (to 24 bytes, the [...] being discarded), every request yields audio,
    each is routed to the model its comment names, and the voice-to-voice
    response carries no [voice_cloned] key. *)
Theorem example_requests_routing : forall fh fg sr fs u,
  (exists d, b64decode (PStr voice_sample_b64) = Ok d /\ length d = 24) /\
  map (fun kv => (has_audio (example_response (env_succeeding fh fg sr fs u) kv),
                  resp_get "model_type" (example_response (env_succeeding fh fg sr fs u) kv),
                  resp_get "voice_cloned" (example_response (env_succeeding fh fg sr fs u) kv)))
    [english_tts_request; french_tts_request; tts_with_voice_request;
     multilingual_tts_with_voice_request; voice_to_voice_request]
  = [(true, Some (PStr "english"), Some (PBool false));
     (true, Some (PStr "multilingual"), Some (PBool false));
     (true, Some (PStr "english"), Some (PBool true));
     (true, Some (PStr "multilingual"), Some (PBool true));
     (true, Some (PStr "voice_clone"), None)].
Proof.
  intros fh fg sr fs u. split; [eexists; split; vm_compute; reflexivity|].
  cbn [map].
  rewrite (example_response_unlink fh fg sr fs u english_tts_request),
    (example_response_unlink fh fg sr fs u french_tts_request),
    (example_response_unlink fh fg sr fs u tts_with_voice_request),
    (example_response_unlink fh fg sr fs u multilingual_tts_with_voice_request),
    (example_response_unlink fh fg sr fs u voice_to_voice_request).
  vm_compute. reflexivity.
Qed.
